(** * The resume rendering engine of [main.py]

    A shallow embedding of the PDF rendering engine ([DynamicSection] and its
    four subclasses, and [ResumePDFGenerator]) together with the properties of
    its specification.

    Conventions of the model.
    - A Python [str] is a [string]; one [ascii] stands for one character.  The
      character classes used by the program ([\d], [[a-z]], [[A-Z]],
      [str.title], [re.IGNORECASE]) are modelled on the ASCII range.
    - A JSON value is a [value]; JSON numbers are the integers (floating
      point numbers are not modelled).  A [dict] is an association list in
      insertion order.
    - A computation that may raise is a [res]; a method that also updates the
      generator's accumulators or the caller's record is a state transformer
      [M] whose state survives a raised exception, as it does in Python.
    - Calls of [self.logger] on the generator only log and are left out; the
      section handlers have no [logger] attribute, which the model keeps.
    - ReportLab's flowables are data: [Paragraph], [Spacer] and [HRFlowable]
      record their arguments.

    After the properties of the specification the file states further
    properties of the code: of the section handlers, the header and the
    generic [add_section], and of the storage helpers and the endpoint
    [process_all], whose calls of external services are inputs of the
    model. *)

From Stdlib Require Import String Ascii List ZArith Bool Arith Lia DecimalString.
Import ListNotations.
Open Scope string_scope.
Set Warnings "-register-all".

(** ** Python strings *)

Module PyStr.

Definition is_digit (c : ascii) : bool :=
  let n := nat_of_ascii c in Nat.leb 48 n && Nat.leb n 57.

Definition is_upper (c : ascii) : bool :=
  let n := nat_of_ascii c in Nat.leb 65 n && Nat.leb n 90.

Definition is_lower (c : ascii) : bool :=
  let n := nat_of_ascii c in Nat.leb 97 n && Nat.leb n 122.

Definition is_cased (c : ascii) : bool := is_upper c || is_lower c.

Definition lower (c : ascii) : ascii :=
  if is_upper c then ascii_of_nat (nat_of_ascii c + 32) else c.

Definition upper (c : ascii) : ascii :=
  if is_lower c then ascii_of_nat (nat_of_ascii c - 32) else c.

Fixpoint map_chars (f : ascii -> ascii) (s : string) : string :=
  match s with
  | EmptyString => EmptyString
  | String c r => String (f c) (map_chars f r)
  end.

(** [s.lower()] *)
Definition lower_str : string -> string := map_chars lower.

(** [s[:n]] *)
Fixpoint take (n : nat) (s : string) : string :=
  match n, s with
  | S k, String c r => String c (take k r)
  | _, _ => EmptyString
  end.

(** [s[n:]] *)
Fixpoint drop (n : nat) (s : string) : string :=
  match n, s with
  | S k, String _ r => drop k r
  | _, _ => s
  end.

(** [sep.join(parts)] for a list of strings *)
Fixpoint join (sep : string) (parts : list string) : string :=
  match parts with
  | [] => ""
  | [x] => x
  | x :: rest => x ++ sep ++ join sep rest
  end.

(** [''.join(parts)] *)
Fixpoint flatten (parts : list string) : string :=
  match parts with
  | [] => ""
  | x :: rest => x ++ flatten rest
  end.

Fixpoint starts_with (p s : string) : bool :=
  match p, s with
  | EmptyString, _ => true
  | String a p', String b s' => Ascii.eqb a b && starts_with p' s'
  | _, _ => false
  end.

(** [needle in s] for two strings: the substring test *)
Fixpoint contains (needle s : string) : bool :=
  starts_with needle s ||
  match s with
  | EmptyString => false
  | String _ r => contains needle r
  end.

(** [s.replace('_', ' ')] *)
Definition replace_underscore : string -> string :=
  map_chars (fun c => if Ascii.eqb c "_" then " "%char else c).

(** [s.title()]: a cased character is upper-cased when the character before
    it is not cased, and lower-cased otherwise. *)
Fixpoint title_from (prev_cased : bool) (s : string) : string :=
  match s with
  | EmptyString => EmptyString
  | String c r =>
      if is_cased c
      then String (if prev_cased then lower c else upper c) (title_from true r)
      else String c (title_from false r)
  end.

Definition title : string -> string := title_from false.

(** [re.sub(r'([a-z])([A-Z])', r'\1 \2', s)]: a match takes two characters,
    and the scan resumes after them. *)
Fixpoint camel_split (s : string) : string :=
  match s with
  | String a (String b r as t) =>
      if is_lower a && is_upper b
      then String a (String " " (String b (camel_split r)))
      else String a (camel_split t)
  | _ => s
  end.

(** the decimal text of an [int] *)
Definition dec (z : Z) : string := NilZero.string_of_int (Z.to_int z).

Definition hex_digit (n : nat) : ascii :=
  if Nat.ltb n 10 then ascii_of_nat (48 + n) else ascii_of_nat (87 + n).

(** [repr] of a string: single quotes unless the string holds a single quote
    and no double quote; backslash, the chosen quote, newline, carriage
    return and tab are escaped, other control characters are written in
    hexadecimal. *)
Definition dquote : ascii := ascii_of_nat 34.
Definition squote : ascii := ascii_of_nat 39.
Definition bslash : ascii := ascii_of_nat 92.

Fixpoint has_char (c : ascii) (s : string) : bool :=
  match s with
  | EmptyString => false
  | String a r => Ascii.eqb a c || has_char c r
  end.

Definition repr_char (q c : ascii) : string :=
  let n := nat_of_ascii c in
  if Ascii.eqb c bslash then String bslash (String bslash "")
  else if Ascii.eqb c q then String bslash (String q "")
  else if Nat.eqb n 10 then String bslash "n"
  else if Nat.eqb n 13 then String bslash "r"
  else if Nat.eqb n 9 then String bslash "t"
  else if Nat.ltb n 32 || Nat.eqb n 127
  then String bslash (String "x" (String (hex_digit (n / 16)) (String (hex_digit (n mod 16)) "")))
  else String c "".

Fixpoint repr_body (q : ascii) (s : string) : string :=
  match s with
  | EmptyString => EmptyString
  | String c r => repr_char q c ++ repr_body q r
  end.

Definition repr_str (s : string) : string :=
  let q := if has_char squote s && negb (has_char dquote s) then dquote else squote in
  String q (repr_body q s ++ String q "").

End PyStr.

(** ** Python values, exceptions and the dynamic operations the program uses *)

Module Py.
Import PyStr.

Inductive value : Type :=
| VNone
| VBool (b : bool)
| VInt (z : Z)
| VStr (s : string)
| VList (l : list value)
| VDict (d : list (string * value)).

(** An exception carries the text [str(e)] gives. *)
Inductive exn : Type :=
| TypeError (msg : string)
| KeyError (msg : string)
| AttributeError (msg : string)
| UnboundLocalError (msg : string).

Definition exn_str (e : exn) : string :=
  match e with
  | TypeError m | KeyError m | AttributeError m | UnboundLocalError m => m
  end.

Inductive res (A : Type) : Type :=
| Ok (a : A)
| Raise (e : exn).
Arguments Ok {A} a.
Arguments Raise {A} e.

Definition bind {A B} (m : res A) (k : A -> res B) : res B :=
  match m with
  | Ok a => k a
  | Raise e => Raise e
  end.

Declare Scope res_scope.
Delimit Scope res_scope with res.
Notation "x <- m ;; k" := (bind m (fun x => k))
  (at level 61, m at next level, right associativity) : res_scope.
Notation "' p <- m ;; k" := (bind m (fun x => match x with p => k end))
  (at level 61, p pattern, m at next level, right associativity) : res_scope.

(** a [for] loop that extends a list of elements with what each item gives *)
Fixpoint for_each {A B} (f : A -> res (list B)) (items : list A) : res (list B) :=
  match items with
  | [] => Ok []
  | x :: rest =>
      (xs <- f x ;; ys <- for_each f rest ;; Ok (xs ++ ys)%list)%res
  end.

Definition type_name (v : value) : string :=
  match v with
  | VNone => "NoneType"
  | VBool _ => "bool"
  | VInt _ => "int"
  | VStr _ => "str"
  | VList _ => "list"
  | VDict _ => "dict"
  end.

(** [str(type(v))] *)
Definition type_str (v : value) : string :=
  "<class '" ++ type_name v ++ "'>".

Fixpoint py_repr (v : value) : string :=
  match v with
  | VNone => "None"
  | VBool true => "True"
  | VBool false => "False"
  | VInt z => dec z
  | VStr s => repr_str s
  | VList l => "[" ++ join ", " (map py_repr l) ++ "]"
  | VDict d =>
      "{" ++ join ", " (map (fun kv => repr_str (fst kv) ++ ": " ++ py_repr (snd kv)) d) ++ "}"
  end.

(** [str(v)], also what an f-string writes for [{v}] *)
Definition py_str (v : value) : string :=
  match v with
  | VStr s => s
  | _ => py_repr v
  end.

(** truth value of [v] in a condition *)
Definition truthy (v : value) : bool :=
  match v with
  | VNone => false
  | VBool b => b
  | VInt z => negb (Z.eqb z 0)
  | VStr s => negb (String.eqb s "")
  | VList l => match l with [] => false | _ => true end
  | VDict d => match d with [] => false | _ => true end
  end.

Definition isinstance_str (v : value) : bool :=
  match v with VStr _ => true | _ => false end.
Definition isinstance_list (v : value) : bool :=
  match v with VList _ => true | _ => false end.
Definition isinstance_dict (v : value) : bool :=
  match v with VDict _ => true | _ => false end.
Definition is_none (v : value) : bool :=
  match v with VNone => true | _ => false end.

(** *** dictionaries *)

Fixpoint dict_get (k : string) (d : list (string * value)) : option value :=
  match d with
  | [] => None
  | (k', v) :: rest => if String.eqb k' k then Some v else dict_get k rest
  end.

Definition dict_has (k : string) (d : list (string * value)) : bool :=
  match dict_get k d with Some _ => true | None => false end.

(** [d[k] = v]: an existing key keeps its place *)
Fixpoint dict_set (k : string) (v : value) (d : list (string * value))
  : list (string * value) :=
  match d with
  | [] => [(k, v)]
  | (k', v') :: rest =>
      if String.eqb k' k then (k, v) :: rest else (k', v') :: dict_set k v rest
  end.

(** [x == VStr k] for a list element [x] *)
Definition eq_str (k : string) (x : value) : bool :=
  match x with VStr s => String.eqb s k | _ => false end.

(** [k in v] for a string [k] *)
Definition py_in (k : string) (v : value) : res bool :=
  match v with
  | VDict d => Ok (dict_has k d)
  | VStr s => Ok (contains k s)
  | VList l => Ok (existsb (eq_str k) l)
  | _ => Raise (TypeError ("argument of type '" ++ type_name v ++ "' is not iterable"))
  end.

(** [v[k]] for a string [k] *)
Definition py_getitem (v : value) (k : string) : res value :=
  match v with
  | VDict d =>
      match dict_get k d with
      | Some x => Ok x
      | None => Raise (KeyError (repr_str k))
      end
  | VStr _ => Raise (TypeError "string indices must be integers, not 'str'")
  | VList _ => Raise (TypeError "list indices must be integers or slices, not str")
  | _ => Raise (TypeError ("'" ++ type_name v ++ "' object is not subscriptable"))
  end.

Fixpoint chars (s : string) : list value :=
  match s with
  | EmptyString => []
  | String c r => VStr (String c "") :: chars r
  end.

(** the items a [for] loop over [v] visits *)
Definition py_iter (v : value) : res (list value) :=
  match v with
  | VList l => Ok l
  | VDict d => Ok (map (fun kv => VStr (fst kv)) d)
  | VStr s => Ok (chars s)
  | _ => Raise (TypeError ("'" ++ type_name v ++ "' object is not iterable"))
  end.

(** [v.items()] *)
Definition py_items (v : value) : res (list (string * value)) :=
  match v with
  | VDict d => Ok d
  | _ => Raise (AttributeError ("'" ++ type_name v ++ "' object has no attribute 'items'"))
  end.

Fixpoint strs_from (i : nat) (l : list value) : res (list string) :=
  match l with
  | [] => Ok []
  | VStr s :: rest => (ss <- strs_from (S i) rest ;; Ok (s :: ss))%res
  | x :: _ =>
      Raise (TypeError ("sequence item " ++ dec (Z.of_nat i)
                        ++ ": expected str instance, " ++ type_name x ++ " found"))
  end.

(** [sep.join(l)] for a list [l] of values *)
Definition py_join (sep : string) (l : list value) : res string :=
  (ss <- strs_from 0 l ;; Ok (join sep ss))%res.

End Py.

(** ** ReportLab: colours, paragraph styles, the stylesheet and flowables *)

Module ReportLab.
Import PyStr Py.

Inductive color : Type :=
| HexColor (code : string)
| red
| lightgrey.

Inductive alignment : Type := TA_LEFT | TA_CENTER | TA_RIGHT.

Inductive attr : Type :=
| ANum (n : Z)
| AColor (c : color)
| AAlign (a : alignment)
| AText (s : string).

(** [ParagraphStyle(name, parent=..., **props)]: the parent is kept by name
    and the keyword arguments in the order they are written. *)
Record ParagraphStyle : Type := mkStyle {
  style_name : string;
  style_parent : option string;
  style_props : list (string * attr)
}.

(** [StyleSheet1]: the styles by name, in the order they were added *)
Definition StyleSheet1 : Type := list (string * ParagraphStyle).

Fixpoint sheet_find (name : string) (sheet : StyleSheet1) : option ParagraphStyle :=
  match sheet with
  | [] => None
  | (n, s) :: rest => if String.eqb n name then Some s else sheet_find name rest
  end.

(** [sheet[name]] *)
Definition sheet_getitem (sheet : StyleSheet1) (name : string) : res ParagraphStyle :=
  match sheet_find name sheet with
  | Some s => Ok s
  | None => Raise (KeyError ("Style '" ++ name ++ "' not found in stylesheet"))
  end.

(** [sheet.get(name, default)]; Python evaluates [default] before the call,
    so it is a computation that runs first. *)
Definition sheet_get (sheet : StyleSheet1) (name : string) (default : res ParagraphStyle)
  : res ParagraphStyle :=
  (d <- default ;;
   match sheet_find name sheet with
   | Some s => Ok s
   | None => Ok d
   end)%res.

(** [sheet.add(style)]: a name that is already there is refused *)
Definition sheet_add (sheet : StyleSheet1) (s : ParagraphStyle) : res StyleSheet1 :=
  match sheet_find (style_name s) sheet with
  | Some _ =>
      Raise (KeyError ("Style '" ++ style_name s ++ "' already defined in stylesheet"))
  | None => Ok (sheet ++ [(style_name s, s)])%list
  end.

(** [getSampleStyleSheet()]: the names and parents of ReportLab's sample
    styles; their attribute values play no part in this program. *)
Definition getSampleStyleSheet : StyleSheet1 :=
  map (fun np => (fst np, mkStyle (fst np) (snd np) []))
    [ ("Normal", None); ("BodyText", Some "Normal"); ("Italic", Some "BodyText");
      ("Heading1", Some "Normal"); ("Title", Some "Normal");
      ("Heading2", Some "Normal"); ("Heading3", Some "Normal");
      ("Heading4", Some "Normal"); ("Heading5", Some "Normal");
      ("Heading6", Some "Normal"); ("Bullet", Some "Normal");
      ("Definition", Some "Normal"); ("Code", Some "Normal");
      ("UnorderedList", Some "Normal"); ("OrderedList", Some "Normal") ].

Inductive Flowable : Type :=
| Paragraph (text : string) (style : ParagraphStyle)
| Spacer (width height : Z)
| HRFlowable (width : string) (thickness : Z) (col : color)
             (spaceBefore spaceAfter : Z) (lineCap : string).

End ReportLab.

(** ** The section handlers *)

Module Sections.
Import PyStr Py ReportLab.
Local Open Scope res_scope.

(** the bullet the source writes before a list item, as the file has it *)
Definition bullet : string := "‚Ä¢ ".

(** *** [ExperienceSection._format_responsibility]

    [re.sub(r'(\d+[%+]|\$[\d,]+|increased|...|developed)', r'<b>\1</b>', resp,
    flags=re.IGNORECASE)].  The alternatives are tried in order at each
    position, the quantifiers are greedy, and the scan resumes after a match. *)

Definition keywords : list string :=
  ["increased"; "decreased"; "improved"; "launched"; "created"; "developed"].

Definition is_metric_end (c : ascii) : bool :=
  Ascii.eqb c "%" || Ascii.eqb c "+".

Definition is_amount_char (c : ascii) : bool :=
  is_digit c || Ascii.eqb c ",".

(** the longest prefix whose characters satisfy [p] *)
Fixpoint span (p : ascii -> bool) (s : string) : string :=
  match s with
  | String c r => if p c then String c (span p r) else EmptyString
  | EmptyString => EmptyString
  end.

(** [\d+[%+]] at the start of [s] *)
Definition match_metric (s : string) : option string :=
  let ds := span is_digit s in
  match drop (String.length ds) s with
  | String c _ =>
      if negb (String.eqb ds "") && is_metric_end c
      then Some (ds ++ String c "")
      else None
  | EmptyString => None
  end.

(** [\$[\d,]+] at the start of [s] *)
Definition match_amount (s : string) : option string :=
  match s with
  | String c r =>
      if Ascii.eqb c "$"
      then match span is_amount_char r with
           | EmptyString => None
           | body => Some (String c body)
           end
      else None
  | EmptyString => None
  end.

(** a keyword at the start of [s], whatever the case of its letters *)
Fixpoint match_keyword (kws : list string) (s : string) : option string :=
  match kws with
  | [] => None
  | kw :: rest =>
      let w := take (String.length kw) s in
      if String.eqb (lower_str w) kw then Some w else match_keyword rest s
  end.

(** the match of the whole pattern at the start of [s] *)
Definition match_at (s : string) : option string :=
  match match_metric s with
  | Some w => Some w
  | None =>
      match match_amount s with
      | Some w => Some w
      | None => match_keyword keywords s
      end
  end.

Inductive segment : Type :=
| Plain (c : ascii)
| Bold (w : string).

(** the scan of [re.sub]: [skip] counts the characters of the current match
    that are still to be passed over *)
Fixpoint scan (skip : nat) (s : string) : list segment :=
  match s with
  | EmptyString => []
  | String c r =>
      match skip with
      | S k => scan k r
      | O =>
          match match_at s with
          | Some w => Bold w :: scan (String.length w - 1) r
          | None => Plain c :: scan 0 r
          end
      end
  end.

Definition render_segment (g : segment) : string :=
  match g with
  | Plain c => String c ""
  | Bold w => "<b>" ++ w ++ "</b>"
  end.

Definition re_sub_bold (s : string) : string :=
  flatten (map render_segment (scan 0 s)).

Definition _format_responsibility (resp : value) : res string :=
  match resp with
  | VStr s => Ok (re_sub_bold s)
  | _ => Raise (TypeError ("expected string or bytes-like object, got '"
                           ++ type_name resp ++ "'"))
  end.

(** [ExperienceSection._format_date_range] *)
Definition _format_date_range (date_str : value) : value := date_str.

(** *** [ExperienceSection.process] *)

(** the text of the header line of one experience: company and location in
    the left cell, the date in a right-aligned cell *)
Definition experience_header (exp : value) : res string :=
  has_company <- py_in "company" exp ;;
  both <- (if has_company then py_in "location" exp else Ok false) ;;
  company_loc_date <-
    (if both then
       c <- py_getitem exp "company" ;;
       l <- py_getitem exp "location" ;;
       Ok ["<b>" ++ py_str c ++ ", " ++ py_str l ++ "</b>"]
     else
       has_company' <- py_in "company" exp ;;
       if has_company'
       then c <- py_getitem exp "company" ;; Ok ["<b>" ++ py_str c ++ "</b>"]
       else Ok []) ;;
  let company_date_text :=
    "<table width='100%'><tr>" ++ "<td>" ++ join " " company_loc_date ++ "</td>" in
  has_date <- py_in "date" exp ;;
  company_date_text <-
    (if has_date then
       d <- py_getitem exp "date" ;;
       Ok (company_date_text ++ "<td align='right'>"
             ++ py_str (_format_date_range d) ++ "</td>")
     else Ok company_date_text) ;;
  Ok (company_date_text ++ "</tr></table>").

Definition experience_entry (styles : StyleSheet1) (exp : value) : res (list Flowable) :=
  company_date_text <- experience_header exp ;;
  title_style <- sheet_getitem styles "ExperienceTitle" ;;
  let exp_elements := [Paragraph company_date_text title_style] in
  has_title <- py_in "title" exp ;;
  exp_elements <-
    (if has_title then
       t <- py_getitem exp "title" ;;
       st <- sheet_getitem styles "JobTitle" ;;
       Ok (exp_elements ++ [Paragraph ("<i>" ++ py_str t ++ "</i>") st])%list
     else Ok exp_elements) ;;
  has_resp <- py_in "responsibilities" exp ;;
  exp_elements <-
    (if has_resp then
       resps <- py_getitem exp "responsibilities" ;;
       items <- py_iter resps ;;
       lines <- for_each (fun resp =>
                  formatted_resp <- _format_responsibility resp ;;
                  st <- sheet_getitem styles "ListItem" ;;
                  Ok [Paragraph (bullet ++ formatted_resp) st]) items ;;
       Ok (exp_elements ++ Spacer 1 5 :: lines)%list
     else Ok exp_elements) ;;
  has_ach <- py_in "achievements" exp ;;
  exp_elements <-
    (if has_ach then
       achs <- py_getitem exp "achievements" ;;
       items <- py_iter achs ;;
       lines <- for_each (fun achievement =>
                  st <- sheet_getitem styles "ListItem" ;;
                  Ok [Paragraph (bullet ++ py_str achievement) st]) items ;;
       Ok (exp_elements ++ lines)%list
     else Ok exp_elements) ;;
  Ok (exp_elements ++ [Spacer 1 10])%list.

Definition ExperienceSection_process (styles : StyleSheet1) (experiences : value)
  : res (list Flowable) :=
  items <- py_iter experiences ;;
  for_each (experience_entry styles) items.

(** *** [SkillsSection.process] *)

Definition SkillsSection_process (styles : StyleSheet1) (skills : value)
  : res (list Flowable) :=
  skill_style <- sheet_get styles "SkillItem" (sheet_getitem styles "Normal") ;;
  items <- py_items skills ;;
  for_each (fun '(category, skill_list) =>
              match skill_list with
              | VList l =>
                  joined <- py_join ", " l ;;
                  Ok [Paragraph ("<b>" ++ category ++ ":</b> " ++ joined) skill_style;
                      Spacer 1 3]
              | _ =>
                  Ok [Paragraph ("<b>" ++ category ++ ":</b> " ++ py_str skill_list)
                        skill_style;
                      Spacer 1 3]
              end) items.

(** *** [EducationSection.process] *)

(** the text of the header line of one education record *)
Definition education_header (edu : value) : res string :=
  has_inst <- py_in "institution" edu ;;
  both <- (if has_inst then py_in "location" edu else Ok false) ;;
  school_loc_date <-
    (if both then
       i <- py_getitem edu "institution" ;;
       l <- py_getitem edu "location" ;;
       Ok ["<b>" ++ py_str i ++ ", " ++ py_str l ++ "</b>"]
     else
       has_inst' <- py_in "institution" edu ;;
       if has_inst'
       then i <- py_getitem edu "institution" ;; Ok ["<b>" ++ py_str i ++ "</b>"]
       else
         has_school <- py_in "school" edu ;;
         if has_school
         then s <- py_getitem edu "school" ;; Ok ["<b>" ++ py_str s ++ "</b>"]
         else Ok ["<b>Institution not specified</b>"]) ;;
  let school_date_text :=
    "<table width='100%'><tr>" ++ "<td>" ++ join " " school_loc_date ++ "</td>" in
  has_date <- py_in "date" edu ;;
  school_date_text <-
    (if has_date then
       d <- py_getitem edu "date" ;;
       Ok (school_date_text ++ "<td align='right'>" ++ py_str d ++ "</td>")
     else
       has_dates <- py_in "dates" edu ;;
       if has_dates then
         d <- py_getitem edu "dates" ;;
         Ok (school_date_text ++ "<td align='right'>" ++ py_str d ++ "</td>")
       else Ok school_date_text) ;;
  Ok (school_date_text ++ "</tr></table>").

(** [self.styles.get(name, self.styles.get('Normal'))] *)
Definition style_or_normal (styles : StyleSheet1) (name : string) : res ParagraphStyle :=
  sheet_get styles name (sheet_getitem styles "Normal").

(** the block written for an element that is not a dictionary *)
Definition skipped_entry (styles : StyleSheet1) (edu : value) : res (list Flowable) :=
  st <- style_or_normal styles "Error" ;;
  Ok [Paragraph ("Skipped invalid education entry (not a dictionary): "
                   ++ take 100 (py_str edu) ++ "...") st].

Definition education_record (styles : StyleSheet1) (edu : value) : res (list Flowable) :=
  school_date_text <- education_header edu ;;
  st <- style_or_normal styles "ExperienceTitle" ;;
  let elements := [Paragraph school_date_text st] in
  has_degree <- py_in "degree" edu ;;
  both <- (if has_degree then py_in "major" edu else Ok false) ;;
  elements <-
    (if both then
       d <- py_getitem edu "degree" ;;
       m <- py_getitem edu "major" ;;
       st <- style_or_normal styles "JobTitle" ;;
       Ok (elements ++ [Paragraph ("<i>" ++ py_str d ++ ": " ++ py_str m ++ "</i>") st])%list
     else
       has_degree' <- py_in "degree" edu ;;
       if has_degree' then
         d <- py_getitem edu "degree" ;;
         st <- style_or_normal styles "JobTitle" ;;
         Ok (elements ++ [Paragraph ("<i>" ++ py_str d ++ "</i>") st])%list
       else Ok elements) ;;
  has_details <- py_in "details" edu ;;
  details <- (if has_details then py_getitem edu "details" else Ok VNone) ;;
  elements <-
    (if has_details && isinstance_list details then
       items <- py_iter details ;;
       lines <- for_each (fun detail =>
                  st <- style_or_normal styles "ListItem" ;;
                  Ok [Paragraph (bullet ++ py_str detail) st]) items ;;
       Ok (elements ++ Spacer 1 5 :: lines)%list
     else
       has_courses <- py_in "courses" edu ;;
       courses <- (if has_courses then py_getitem edu "courses" else Ok VNone) ;;
       match has_courses, courses with
       | true, VList l =>
           st <- style_or_normal styles "Content" ;;
           let head := Paragraph "<b>Relevant Coursework:</b>" st in
           joined <- py_join ", " l ;;
           st' <- style_or_normal styles "Content" ;;
           Ok (elements ++ [Spacer 1 5; head; Paragraph joined st'])%list
       | _, _ => Ok elements
       end) ;;
  Ok (elements ++ [Spacer 1 10])%list.

(** the body of the loop over the education entries *)
Definition education_entry (styles : StyleSheet1) (edu : value) : res (list Flowable) :=
  if isinstance_dict edu then education_record styles edu else skipped_entry styles edu.

(** A dictionary is to be wrapped in a list after a warning is logged through
    [self.logger]; a section handler has no such attribute, so that call
    raises. *)
Definition EducationSection_process (styles : StyleSheet1) (education : value)
  : res (list Flowable) :=
  match education with
  | VDict _ =>
      Raise (AttributeError "'EducationSection' object has no attribute 'logger'")
  | VList l => for_each (education_entry styles) l
  | VStr s =>
      st <- sheet_getitem styles "Normal" ;;
      Ok [Paragraph ("Education (raw text): " ++ s) st]
  | _ =>
      st <- style_or_normal styles "Error" ;;
      Ok [Paragraph ("Education data is not in the expected format: "
                       ++ type_str education) st]
  end.

(** *** [ProjectsSection.process] *)

Definition project_entry (styles : StyleSheet1) (project : value) : res (list Flowable) :=
  let project_header := "<table width='100%'><tr>" in
  has_name <- py_in "name" project ;;
  project_header <-
    (if has_name then
       n <- py_getitem project "name" ;;
       let h := project_header ++ "<td><b>" ++ py_str n ++ "</b>" in
       has_date <- py_in "date" project ;;
       h <- (if has_date
             then d <- py_getitem project "date" ;; Ok (h ++ " (" ++ py_str d ++ ")")
             else Ok h) ;;
       Ok (h ++ "</td>")
     else Ok project_header) ;;
  let project_header := project_header ++ "</tr></table>" in
  st <- sheet_getitem styles "JobTitle" ;;
  let elements := [Paragraph project_header st] in
  has_desc <- py_in "description" project ;;
  elements <-
    (if has_desc then
       d <- py_getitem project "description" ;;
       st <- sheet_getitem styles "ListItem" ;;
       Ok (elements ++ [Paragraph (bullet ++ py_str d) st])%list
     else Ok elements) ;;
  has_tech <- py_in "technologies" project ;;
  elements <-
    (if has_tech then
       t <- py_getitem project "technologies" ;;
       tech_text <- match t with
                    | VList l => py_join ", " l
                    | _ => Ok (py_str t)
                    end ;;
       st <- sheet_getitem styles "ExperienceDetails" ;;
       Ok (elements ++ [Paragraph ("<i>Technologies: " ++ tech_text ++ "</i>") st])%list
     else Ok elements) ;;
  Ok (elements ++ [Spacer 1 5])%list.

Definition ProjectsSection_process (styles : StyleSheet1) (projects : value)
  : res (list Flowable) :=
  items <- py_iter projects ;;
  for_each (project_entry styles) items.

End Sections.

(** ** [ResumePDFGenerator] *)

Module Generator.
Import PyStr Py ReportLab Sections.
Local Open Scope res_scope.

(** *** themes and styles *)

Record palette : Type := mkPalette {
  primary : color;
  secondary : color;
  accent : color;
  text : color;
  subtext : color;
  background : color;
  highlight : color
}.

Definition default_theme : palette :=
  {| primary := HexColor "#2A1052";
     secondary := HexColor "#333333";
     accent := HexColor "#4B0082";
     text := HexColor "#000000";
     subtext := HexColor "#666666";
     background := HexColor "#FFFFFF";
     highlight := HexColor "#4B0082" |}.

Definition themes : list (string * palette) := [("default", default_theme)].

Fixpoint themes_find (name : string) (ts : list (string * palette)) : option palette :=
  match ts with
  | [] => None
  | (n, p) :: rest => if String.eqb n name then Some p else themes_find name rest
  end.

(** [themes.get(theme, themes['default'])] *)
Definition _get_theme_colors (theme : string) : palette :=
  match themes_find theme themes with
  | Some p => p
  | None => default_theme
  end.

(** the [styles_config] table: name, parent and properties of each style *)
Definition styles_config (colors : palette)
  : list (string * (string * list (string * attr))) :=
  [ ("HeaderTitle", ("Normal",
       [("fontSize", ANum 12); ("textColor", AColor (subtext colors));
        ("alignment", AAlign TA_LEFT); ("spaceAfter", ANum 8); ("leading", ANum 14)]));
    ("SectionHeader", ("Heading2",
       [("fontSize", ANum 14); ("textColor", AColor (primary colors));
        ("spaceBefore", ANum 8); ("spaceAfter", ANum 2); ("leading", ANum 16);
        ("fontName", AText "Helvetica-Bold")]));
    ("ListItem", ("Normal",
       [("fontSize", ANum 9); ("textColor", AColor (text colors));
        ("spaceBefore", ANum 0); ("spaceAfter", ANum 3); ("leftIndent", ANum 10);
        ("leading", ANum 13)]));
    ("Content", ("Normal",
       [("fontSize", ANum 10); ("textColor", AColor (text colors));
        ("spaceBefore", ANum 0); ("spaceAfter", ANum 3); ("leading", ANum 13)]));
    ("SkillItem", ("Normal",
       [("fontSize", ANum 9); ("textColor", AColor (text colors));
        ("spaceBefore", ANum 1); ("spaceAfter", ANum 1); ("leading", ANum 12)]));
    ("ExperienceTitle", ("Normal",
       [("fontSize", ANum 10); ("textColor", AColor (text colors));
        ("spaceBefore", ANum 4); ("spaceAfter", ANum 1); ("leading", ANum 12)]));
    ("JobTitle", ("Normal",
       [("fontSize", ANum 10); ("textColor", AColor (primary colors));
        ("spaceBefore", ANum 1); ("spaceAfter", ANum 2); ("leading", ANum 12)]));
    ("ExperienceDetails", ("Normal",
       [("fontSize", ANum 9); ("textColor", AColor (subtext colors));
        ("spaceBefore", ANum 1); ("spaceAfter", ANum 2); ("leading", ANum 11)])) ].

(** the loop that adds the styles of [styles_config] *)
Fixpoint add_configured (config : list (string * (string * list (string * attr))))
  (styles : StyleSheet1) : res StyleSheet1 :=
  match config with
  | [] => Ok styles
  | (style_name, (parent, style_props)) :: rest =>
      parent_style <- sheet_getitem styles parent ;;
      styles <- sheet_add styles
                  (mkStyle style_name (Some (ReportLab.style_name parent_style)) style_props) ;;
      add_configured rest styles
  end.

(** [setup_styles], on the stylesheet [__init__] has put in [self.styles] *)
Definition setup_styles (theme : string) (styles : StyleSheet1) : res StyleSheet1 :=
  let colors := _get_theme_colors theme in
  h1 <- sheet_getitem styles "Heading1" ;;
  styles <- sheet_add styles
    (mkStyle "HeaderName" (Some (style_name h1))
       [("fontSize", ANum 20); ("textColor", AColor (primary colors));
        ("spaceAfter", ANum 10); ("alignment", AAlign TA_CENTER)]) ;;
  normal <- sheet_getitem styles "Normal" ;;
  styles <- sheet_add styles
    (mkStyle "Contact" (Some (style_name normal))
       [("fontSize", ANum 10); ("textColor", AColor (text colors));
        ("alignment", AAlign TA_CENTER); ("spaceAfter", ANum 5)]) ;;
  normal <- sheet_getitem styles "Normal" ;;
  styles <- sheet_add styles
    (mkStyle "Error" (Some (style_name normal))
       [("fontSize", ANum 11); ("textColor", AColor red);
        ("spaceBefore", ANum 2); ("spaceAfter", ANum 2);
        ("backColor", AColor lightgrey); ("borderWidth", ANum 1);
        ("borderColor", AColor red); ("borderPadding", ANum 5);
        ("borderRadius", ANum 2); ("alignment", AAlign TA_LEFT)]) ;;
  add_configured (styles_config colors) styles.

Record ResumePDFGenerator : Type := mkGenerator {
  theme : string;
  colors : palette;
  styles : StyleSheet1;
  header_elements : list Flowable;
  main_content : list Flowable
}.

(** [ResumePDFGenerator(output_path, theme)] *)
Definition __init__ (theme : string) : res ResumePDFGenerator :=
  styles <- setup_styles theme getSampleStyleSheet ;;
  Ok {| theme := theme;
        colors := _get_theme_colors theme;
        styles := styles;
        header_elements := [];
        main_content := [] |}.

(** [_initialize_section_handlers]: every handler shares [self.styles] *)
Definition handler : Type := StyleSheet1 -> value -> res (list Flowable).

Definition section_handlers : list (string * handler) :=
  [ ("experience", ExperienceSection_process);
    ("skills", SkillsSection_process);
    ("education", EducationSection_process);
    ("projects", ProjectsSection_process) ].

Fixpoint handlers_get (name : string) (hs : list (string * handler)) : option handler :=
  match hs with
  | [] => None
  | (n, h) :: rest => if String.eqb n name then Some h else handlers_get name rest
  end.

(** *** [process_section] *)

Definition in_list (x : string) (l : list string) : bool :=
  existsb (String.eqb x) l.

Definition list_sections : list string :=
  ["experience"; "education"; "projects"; "certifications"; "publications"].

(** the string a text payload is cut to: [content[:500] + ("..." if
    len(content) > 500 else "")] *)
Definition truncate_500 (content : string) : string :=
  take 500 content ++ (if Nat.ltb 500 (String.length content) then "..." else "").

(** the education entry made from a text payload *)
Definition text_education (content : string) : value :=
  VList [VDict [("institution", VStr "From Resume Text");
                ("degree", VStr "Education Information");
                ("details", VList [VStr (truncate_500 content)])]].

(** the two paragraphs returned for a text payload of the wrong shape *)
Definition invalid_format (styles : StyleSheet1) (error_style : ParagraphStyle)
  (section_name content : string) : res (list Flowable) :=
  let first := Paragraph ("Error: Invalid data format for " ++ section_name) error_style in
  normal <- sheet_getitem styles "Normal" ;;
  Ok [first; Paragraph (take 250 content ++ "...") normal].

(** the default handling of a section that has no handler *)
Definition default_item (styles : StyleSheet1) (item : value) : res (list Flowable) :=
  match item with
  | VStr s =>
      st <- sheet_getitem styles "ListItem" ;;
      Ok [Paragraph (bullet ++ s) st]
  | VDict d =>
      for_each (fun '(key, value) =>
                  normal <- sheet_getitem styles "Normal" ;;
                  let head := Paragraph ("<b>" ++ key ++ "</b>") normal in
                  match value with
                  | VStr s =>
                      st <- sheet_getitem styles "Content" ;;
                      Ok [head; Paragraph s st]
                  | _ => Ok [head]
                  end) d
  | _ => Ok []
  end.

Definition default_field (styles : StyleSheet1) (kv : string * value)
  : res (list Flowable) :=
  let '(key, value) := kv in
  normal <- sheet_getitem styles "Normal" ;;
  let head := Paragraph ("<b>" ++ key ++ "</b>") normal in
  match value with
  | VStr s =>
      st <- sheet_getitem styles "Content" ;;
      Ok [head; Paragraph s st]
  | VList l =>
      lines <- for_each (fun item =>
                 match item with
                 | VStr s =>
                     st <- sheet_getitem styles "ListItem" ;;
                     Ok [Paragraph (bullet ++ s) st]
                 | _ => Ok []
                 end) l ;;
      Ok (head :: lines)
  | _ => Ok [head]
  end.

Definition default_render (styles : StyleSheet1) (content : value) : res (list Flowable) :=
  match content with
  | VStr s =>
      normal <- sheet_getitem styles "Normal" ;;
      Ok [Paragraph s normal]
  | VList l => for_each (default_item styles) l
  | VDict d => for_each (default_field styles) d
  | _ => Ok []
  end.

(** the [try] block of [process_section] *)
Definition process_section_try (self : ResumePDFGenerator) (section_name : string)
  (content : value) : res (list Flowable) :=
  error_style <- sheet_get (styles self) "Error" (sheet_getitem (styles self) "Normal") ;;
  match content with
  | VStr s =>
      if in_list section_name list_sections then
        if String.eqb section_name "education" then
          match handlers_get section_name section_handlers with
          | Some section_handler => section_handler (styles self) (text_education s)
          | None => invalid_format (styles self) error_style section_name s
          end
        else invalid_format (styles self) error_style section_name s
      else if String.eqb section_name "skills" then
        invalid_format (styles self) error_style section_name s
      else
        normal <- sheet_getitem (styles self) "Normal" ;;
        Ok [Paragraph s normal]
  | _ =>
      match handlers_get section_name section_handlers with
      | Some section_handler => section_handler (styles self) content
      | None => default_render (styles self) content
      end
  end.

(** the block the [except] clause of [process_section] returns *)
Definition section_error (self : ResumePDFGenerator) (section_name : string) (e : exn)
  : res (list Flowable) :=
  error_style <- sheet_get (styles self) "Error" (sheet_getitem (styles self) "Normal") ;;
  Ok [Paragraph ("Error processing " ++ section_name ++ ": " ++ exn_str e) error_style].

Definition process_section (self : ResumePDFGenerator) (section_name : string)
  (content : value) : res (list Flowable) :=
  match process_section_try self section_name content with
  | Ok elements => Ok elements
  | Raise e => section_error self section_name e
  end.

(** *** the accumulators and the record: state that survives an exception *)

Definition frame : Type := (ResumePDFGenerator * value)%type.

Definition M (A : Type) : Type := frame -> res A * frame.

Definition ret {A} (a : A) : M A := fun st => (Ok a, st).

Definition mbind {A B} (m : M A) (k : A -> M B) : M B :=
  fun st =>
    match m st with
    | (Ok a, st') => k a st'
    | (Raise e, st') => (Raise e, st')
    end.

Definition lift {A} (r : res A) : M A := fun st => (r, st).

(** [try: m except Exception as e: h e] *)
Definition try_except {A} (m : M A) (h : exn -> M A) : M A :=
  fun st =>
    match m st with
    | (Ok a, st') => (Ok a, st')
    | (Raise e, st') => h e st'
    end.

Definition get_self : M ResumePDFGenerator := fun st => (Ok (fst st), st).
Definition get_data : M value := fun st => (Ok (snd st), st).
Definition set_data (v : value) : M unit := fun st => (Ok tt, (fst st, v)).

Definition extend_main (els : list Flowable) : M unit :=
  fun st =>
    let self := fst st in
    (Ok tt, ({| theme := theme self; colors := colors self; styles := styles self;
                header_elements := header_elements self;
                main_content := (main_content self ++ els)%list |}, snd st)).

Definition append_main (el : Flowable) : M unit := extend_main [el].

Definition append_header (el : Flowable) : M unit :=
  fun st =>
    let self := fst st in
    (Ok tt, ({| theme := theme self; colors := colors self; styles := styles self;
                header_elements := (header_elements self ++ [el])%list;
                main_content := main_content self |}, snd st)).

Declare Scope gen_scope.
Delimit Scope gen_scope with gen.
Notation "x <- m ;; k" := (mbind m (fun x => k))
  (at level 61, m at next level, right associativity) : gen_scope.
Notation "m ;;; k" := (mbind m (fun _ => k))
  (at level 61, right associativity) : gen_scope.

(** a [for] loop whose body works on the state *)
Fixpoint for_ {A} (body : A -> M unit) (items : list A) : M unit :=
  match items with
  | [] => ret tt
  | x :: rest => mbind (body x) (fun _ => for_ body rest)
  end.

(** [v[k] = x] *)
Definition py_setitem (v : value) (k : string) (x : value) : res value :=
  match v with
  | VDict d => Ok (VDict (dict_set k x d))
  | VList _ => Raise (TypeError "list indices must be integers or slices, not str")
  | _ => Raise (TypeError ("'" ++ type_name v ++ "' object does not support item assignment"))
  end.

(** *** [format_contact_info], [add_section_divider] *)

Definition glyph_email : string := "‚úâÔ∏è ".
Definition glyph_phone : string := "üìû ".
Definition glyph_link : string := "üîó ".

(** [[glyph + data[field]]] when the field is present and not empty *)
Definition contact_part (resume_data : value) (field glyph : string) : res (list string) :=
  present <- py_in field resume_data ;;
  if present then
    v <- py_getitem resume_data field ;;
    if truthy v
    then v <- py_getitem resume_data field ;; Ok [glyph ++ py_str v]
    else Ok []
  else Ok [].

Definition format_contact_info (resume_data : value) : string :=
  let body :=
    if negb (isinstance_dict resume_data) then Ok "Contact information not available"
    else
      email <- contact_part resume_data "email" glyph_email ;;
      phone <- contact_part resume_data "phone" glyph_phone ;;
      let contact_parts := (email ++ phone)%list in
      github <- contact_part resume_data "github" glyph_link ;;
      linkedin <- contact_part resume_data "linkedin" glyph_link ;;
      let social_parts := (github ++ linkedin)%list in
      let contact_text :=
        match contact_parts with
        | [] => ""
        | _ => "<div align='center'>" ++ join " | " contact_parts ++ "</div>"
        end in
      Ok (match social_parts with
          | [] => contact_text
          | _ => contact_text ++ "<div align='center'>" ++ join " | " social_parts ++ "</div>"
          end) in
  match body with
  | Ok s => s
  | Raise _ => "Contact information not available"
  end.

Definition add_section_divider (self : ResumePDFGenerator) : Flowable :=
  HRFlowable "100%" 1 (secondary (colors self)) 0 5 "round".

(** [re.sub(r'([a-z])([A-Z])', r'\1 \2', key).replace('_', ' ').title()] *)
Definition section_title (key : string) : string :=
  title (replace_underscore (camel_split key)).

(** *** [create_header_section] and [process_resume]

    [json.loads] is the standard library's parser and is a parameter of the
    model: [None] stands for [json.JSONDecodeError]. *)

Section Assembler.
Variable json_loads : string -> option value.
Local Open Scope gen_scope.

Definition contact_fields : list string :=
  ["email"; "phone"; "linkedin"; "github"; "website"].

(** whether the [contact_info] comprehension keeps a field *)
Definition has_contact_info (resume_data : value) : res bool :=
  (kept <- for_each (fun field =>
             present <- py_in field resume_data ;;
             if present then
               v <- py_getitem resume_data field ;;
               Ok (if truthy v then [field] else [])
             else Ok []) contact_fields ;;
   Ok (match kept with [] => false | _ => true end))%res.

Definition header_style_of (self : ResumePDFGenerator) : res ParagraphStyle :=
  sheet_get (styles self) "HeaderName" (sheet_getitem (styles self) "Heading1").

Definition error_name : value := VDict [("name", VStr "Error Processing Resume")].

Definition create_header_section (resume_data : value) : M unit :=
  try_except
    (self <- get_self ;;
     header_style <- lift (header_style_of self) ;;
     let resume_data :=
       if isinstance_dict resume_data then resume_data
       else match resume_data with
            | VStr s =>
                match json_loads s with
                | Some parsed => parsed
                | None => error_name
                end
            | _ => error_name
            end in
     named <- lift (if isinstance_dict resume_data then
                      (present <- py_in "name" resume_data ;;
                       if present
                       then n <- py_getitem resume_data "name" ;; Ok (truthy n)
                       else Ok false)%res
                    else Ok false) ;;
     (if named then
        n <- lift (py_getitem resume_data "name") ;;
        append_header
          (Paragraph ("<div align='center'>" ++ py_str n ++ "</div>") header_style)
      else
        append_header (Paragraph "<div align='center'>Resume</div>" header_style)) ;;;
     if isinstance_dict resume_data then
       contact_info <- lift (has_contact_info resume_data) ;;
       if contact_info then
         let contact_text := format_contact_info resume_data in
         contact_style <- lift (sheet_get (styles self) "Contact"
                                  (sheet_getitem (styles self) "Normal")) ;;
         append_header (Paragraph contact_text contact_style) ;;;
         append_header (Spacer 1 5)
       else ret tt
     else ret tt)
    (fun _ =>
       self <- get_self ;;
       header_style <- lift (header_style_of self) ;;
       append_header (Paragraph "<div align='center'>Resume</div>" header_style)).

Definition section_order : list string :=
  ["summary"; "skills"; "experience"; "education"; "projects";
   "certifications"; "publications"].

Definition skip_fields : list string :=
  (["name"; "email"; "phone"; "linkedin"; "github"; "website"; "location"; "summary"]
     ++ section_order)%list.

(** the record put in place of a top-level value that is no dictionary *)
Definition invalid_record : value :=
  VDict [("name", VStr "Error Processing Resume");
         ("summary", VStr "Invalid resume data format")].

(** the entry put in place of an education value that is neither a string,
    a list nor a dictionary *)
Definition invalid_education (education_data : value) : value :=
  VList [VDict [("institution", VStr "Invalid Format");
                ("degree", VStr "Could not parse education data");
                ("details", VList [VStr ("Original type: " ++ type_str education_data)])]].

(** the extra validation of the education section: it writes the proper
    structure back into [resume_data] *)
Definition validate_education (section : string) : M unit :=
  resume_data <- get_data ;;
  education_data <- lift (py_getitem resume_data section) ;;
  match education_data with
  | VStr s =>
      updated <- lift (py_setitem resume_data section (text_education s)) ;;
      set_data updated
  | VList _ => ret tt
  | VDict _ =>
      updated <- lift (py_setitem resume_data section (VList [education_data])) ;;
      set_data updated
  | _ =>
      updated <- lift (py_setitem resume_data section (invalid_education education_data)) ;;
      set_data updated
  end.

(** title, divider and elements of one section, appended to [main_content] *)
Definition emit_section (key : string) (content : M value) : M unit :=
  self <- get_self ;;
  header <- lift (sheet_getitem (styles self) "SectionHeader") ;;
  append_main (Paragraph (section_title key) header) ;;;
  append_main (add_section_divider self) ;;;
  value <- content ;;
  section_elements <- lift (process_section self key value) ;;
  extend_main section_elements.

(** the body of the loop over [section_order].  The [except] clause reads
    [section_title]; nothing in the [try] block can raise before that name is
    assigned. *)
Definition fixed_section (error_style : ParagraphStyle) (section : string) : M unit :=
  resume_data <- get_data ;;
  present <- lift (py_in section resume_data) ;;
  nonempty <- (if present
               then v <- lift (py_getitem resume_data section) ;; ret (truthy v)
               else ret false) ;;
  if nonempty then
    try_except
      ((if String.eqb section "education" then validate_education section else ret tt) ;;;
       emit_section section
         (resume_data <- get_data ;; lift (py_getitem resume_data section)))
      (fun _ =>
         append_main (Paragraph ("Error processing " ++ section_title section) error_style))
  else ret tt.

(** the body of the loop over the remaining keys *)
Definition other_section (error_style : ParagraphStyle) (item : string * value) : M unit :=
  let '(key, value) := item in
  if negb (in_list key skip_fields) && negb (is_none value) then
    try_except
      (emit_section key (ret value))
      (fun _ =>
         append_main (Paragraph ("Error processing " ++ section_title key) error_style))
  else ret tt.

(** the validation of [resume_data] at the start of the [try] block: a
    string is parsed, and whatever is no dictionary by then is replaced *)
Definition validate_record : M unit :=
  resume_data <- get_data ;;
  if isinstance_dict resume_data then ret tt
  else match resume_data with
       | VStr s =>
           match json_loads s with
           | Some parsed => set_data parsed
           | None => set_data invalid_record
           end
       | _ => set_data invalid_record
       end.

(** the header and the two loops over the sections *)
Definition assemble (error_style : ParagraphStyle) : M unit :=
  resume_data <- get_data ;;
  create_header_section resume_data ;;;
  for_ (fixed_section error_style) section_order ;;;
  resume_data <- get_data ;;
  items <- lift (py_items resume_data) ;;
  for_ (other_section error_style) items.

(** the [try] block of [process_resume] after its two style lookups *)
Definition process_resume_try (error_style : ParagraphStyle) : M unit :=
  validate_record ;;; assemble error_style.

(** [process_resume]: the result, the generator and the object the name
    [resume_data] denotes when the method returns.  The [except] clause reads
    [header_style], which is unbound if one of the first two lookups raised. *)
Definition process_resume (self : ResumePDFGenerator) (resume_data : value)
  : res unit * frame :=
  let looked_up :=
    (error_style <- sheet_get (styles self) "Error" (sheet_getitem (styles self) "Normal") ;;
     header_style <- header_style_of self ;;
     Ok (error_style, header_style))%res in
  match looked_up with
  | Raise _ =>
      (Raise (UnboundLocalError
                "cannot access local variable 'header_style' where it is not associated with a value"),
       (self, resume_data))
  | Ok (error_style, header_style) =>
      try_except (process_resume_try error_style)
        (fun e =>
           append_main (Paragraph "Error Processing Resume" header_style) ;;;
           self' <- get_self ;;
           normal <- lift (sheet_getitem (styles self') "Normal") ;;
           append_main
             (Paragraph ("An error occurred while processing this resume: " ++ exn_str e)
                normal))
        (self, resume_data)
  end.

(** the caller's record after the call: a dictionary is passed by reference
    and is the object [resume_data] still denotes; any other value is left as
    it was (the method only rebinds its local name). *)
Definition record_after (self : ResumePDFGenerator) (resume_data : value) : value :=
  if isinstance_dict resume_data
  then snd (snd (process_resume self resume_data))
  else resume_data.

(** [generate_pdf] combines the header and the main content. *)
Definition all_content (self : ResumePDFGenerator) : list Flowable :=
  (header_elements self ++ main_content self)%list.

(** the blocks handed to the document builder by
    [ResumePDFGenerator(path, theme)], [process_resume(resume_data)],
    [generate_pdf()] *)
Definition render (theme : string) (resume_data : value) : res (list Flowable) :=
  match __init__ theme with
  | Raise e => Raise e
  | Ok pdf_gen =>
      match process_resume pdf_gen resume_data with
      | (Ok _, (self, _)) => Ok (all_content self)
      | (Raise e, _) => Raise e
      end
  end.

End Assembler.

(** *** [add_section] *)



End Generator.

(** ** A reference instance of [json_loads]

    A parser for JSON texts without fractions, exponents or escape sequences,
    on which it agrees with [json.loads]; the closed examples below are
    evaluated with it. *)

Module JsonLite.
Import PyStr Py.

Definition is_ws (c : ascii) : bool :=
  let n := nat_of_ascii c in
  Nat.eqb n 32 || Nat.eqb n 9 || Nat.eqb n 10 || Nat.eqb n 13.

Fixpoint skip_ws (s : string) : string :=
  match s with
  | String c r => if is_ws c then skip_ws r else s
  | EmptyString => s
  end.

(** the characters of a string literal after its opening quote *)
Fixpoint string_body (s : string) : option (string * string) :=
  match s with
  | EmptyString => None
  | String c r =>
      if Ascii.eqb c dquote then Some (EmptyString, r)
      else if Ascii.eqb c bslash || Nat.ltb (nat_of_ascii c) 32 then None
      else match string_body r with
           | Some (t, r') => Some (String c t, r')
           | None => None
           end
  end.

Fixpoint digits_value (acc : Z) (ds : string) : Z :=
  match ds with
  | EmptyString => acc
  | String c r => digits_value (10 * acc + Z.of_nat (nat_of_ascii c - 48)) r
  end.

Definition is_fraction_start (s : string) : bool :=
  match s with
  | String c _ => Ascii.eqb c "." || Ascii.eqb c "e" || Ascii.eqb c "E"
  | EmptyString => false
  end.

(** an integer without sign: [0] or digits that do not start with [0] *)
Definition natural (s : string) : option (Z * string) :=
  let ds := Sections.span is_digit s in
  let r := drop (String.length ds) s in
  match ds with
  | EmptyString => None
  | String c more =>
      if (Ascii.eqb c "0" && negb (String.eqb more "")) || is_fraction_start r
      then None
      else Some (digits_value 0 ds, r)
  end.

Fixpoint value_at (fuel : nat) (s : string) {struct fuel} : option (value * string) :=
  match fuel with
  | O => None
  | S fuel' =>
      let s := skip_ws s in
      if starts_with "null" s then Some (VNone, drop 4 s)
      else if starts_with "true" s then Some (VBool true, drop 4 s)
      else if starts_with "false" s then Some (VBool false, drop 5 s)
      else
        match s with
        | EmptyString => None
        | String c r =>
            if Ascii.eqb c dquote then
              match string_body r with
              | Some (t, r') => Some (VStr t, r')
              | None => None
              end
            else if Ascii.eqb c "-" then
              match natural r with
              | Some (n, r') => Some (VInt (- n), r')
              | None => None
              end
            else if Ascii.eqb c "[" then
              match skip_ws r with
              | String c' r' =>
                  if Ascii.eqb c' "]" then Some (VList [], r')
                  else match elements_at fuel' (String c' r') with
                       | Some (l, r'') => Some (VList l, r'')
                       | None => None
                       end
              | EmptyString => None
              end
            else if Ascii.eqb c "{" then
              match skip_ws r with
              | String c' r' =>
                  if Ascii.eqb c' "}" then Some (VDict [], r')
                  else match members_at fuel' (String c' r') [] with
                       | Some (d, r'') => Some (VDict d, r'')
                       | None => None
                       end
              | EmptyString => None
              end
            else
              match natural s with
              | Some (n, r') => Some (VInt n, r')
              | None => None
              end
        end
  end
with elements_at (fuel : nat) (s : string) {struct fuel} : option (list value * string) :=
  match fuel with
  | O => None
  | S fuel' =>
      match value_at fuel' s with
      | Some (v, r) =>
          match skip_ws r with
          | String c r' =>
              if Ascii.eqb c "," then
                match elements_at fuel' r' with
                | Some (l, r'') => Some (v :: l, r'')
                | None => None
                end
              else if Ascii.eqb c "]" then Some ([v], r')
              else None
          | EmptyString => None
          end
      | None => None
      end
  end
with members_at (fuel : nat) (s : string) (acc : list (string * value)) {struct fuel}
  : option (list (string * value) * string) :=
  match fuel with
  | O => None
  | S fuel' =>
      match skip_ws s with
      | String q r =>
          if Ascii.eqb q dquote then
            match string_body r with
            | Some (k, r1) =>
                match skip_ws r1 with
                | String colon r2 =>
                    if Ascii.eqb colon ":" then
                      match value_at fuel' r2 with
                      | Some (v, r3) =>
                          let acc' := dict_set k v acc in
                          match skip_ws r3 with
                          | String c r4 =>
                              if Ascii.eqb c "," then members_at fuel' r4 acc'
                              else if Ascii.eqb c "}" then Some (acc', r4)
                              else None
                          | EmptyString => None
                          end
                      | None => None
                      end
                    else None
                | EmptyString => None
                end
            | None => None
            end
          else None
      | EmptyString => None
      end
  end.

Definition json_loads (s : string) : option value :=
  match value_at (2 * String.length s + 2) s with
  | Some (v, r) => if String.eqb (skip_ws r) "" then Some v else None
  | None => None
  end.

End JsonLite.

(** ** Notions used to state the properties *)

Module Spec.
Import PyStr Py ReportLab Sections Generator.

(** the stylesheet a generator holds once [__init__] has run *)
Definition catalog : StyleSheet1 :=
  Eval vm_compute in
    match setup_styles "default" getSampleStyleSheet with
    | Ok styles => styles
    | Raise _ => []
    end.

(** the style of that name in [catalog] *)
Definition sty (name : string) : ParagraphStyle :=
  match sheet_find name catalog with
  | Some st => st
  | None => mkStyle name None []
  end.

(** a generator with the accumulators [hdr] and [main] *)
Definition gen (theme : string) (hdr main : list Flowable) : ResumePDFGenerator :=
  mkGenerator theme default_theme catalog hdr main.

Definition fresh (theme : string) : ResumePDFGenerator := gen theme [] [].

Definition required_styles : list string :=
  ["HeaderName"; "Contact"; "Error"; "HeaderTitle"; "SectionHeader"; "ListItem";
   "Content"; "SkillItem"; "ExperienceTitle"; "JobTitle"; "ExperienceDetails";
   "Normal"].

(** the names [setup_styles] adds to the stylesheet it is given *)
Definition custom_styles : list string :=
  ["HeaderName"; "Contact"; "Error"; "HeaderTitle"; "SectionHeader"; "ListItem";
   "Content"; "SkillItem"; "ExperienceTitle"; "JobTitle"; "ExperienceDetails"].

Definition elements_of (r : res (list Flowable)) : list Flowable :=
  match r with
  | Ok els => els
  | Raise _ => []
  end.

(** what a section contributes to the document: title, divider, elements *)
Definition section_blocks (theme key : string) (v : value) : list Flowable :=
  Paragraph (section_title key) (sty "SectionHeader")
    :: add_section_divider (fresh theme)
    :: elements_of (process_section (fresh theme) key v).

(** the list form [process_resume] writes back for the education value *)
Definition canonical_education (x : value) : value :=
  match x with
  | VStr s => text_education s
  | VList _ => x
  | VDict _ => VList [x]
  | _ => invalid_education x
  end.

Definition canonical_record (d : list (string * value)) : list (string * value) :=
  match dict_get "education" d with
  | Some x => if truthy x then dict_set "education" (canonical_education x) d else d
  | None => d
  end.

(** the blocks of a fixed-order section: nothing if it is absent or empty *)
Definition present_blocks (theme : string) (d : list (string * value)) (section : string)
  : list Flowable :=
  match dict_get section d with
  | Some x => if truthy x then section_blocks theme section x else []
  | None => []
  end.

Definition fixed_blocks (theme : string) (d : list (string * value)) : list Flowable :=
  flat_map (present_blocks theme d) section_order.

(** the keys that make a section of their own after the fixed ones *)
Definition is_other (item : string * value) : bool :=
  negb (in_list (fst item) skip_fields) && negb (is_none (snd item)).

Definition other_blocks (theme : string) (items : list (string * value)) : list Flowable :=
  flat_map (fun item => section_blocks theme (fst item) (snd item)) (filter is_other items).

(** the blocks [create_header_section] writes *)
Definition header_block (b : Flowable) : Prop :=
  match b with
  | Paragraph _ st => st = sty "HeaderName" \/ st = sty "Contact"
  | Spacer w h => w = 1%Z /\ h = 5%Z
  | HRFlowable _ _ _ _ _ _ => False
  end.

(** the blocks [create_header_section] appends for the value [v] *)
Definition header_blocks (json_loads : string -> option value) (theme : string) (v : value)
  : list Flowable :=
  header_elements (fst (snd (create_header_section json_loads v (fresh theme, v)))).

(** the value [resume_data] denotes after the validation at the start of
    [process_resume] *)
Definition validated (json_loads : string -> option value) (v : value) : value :=
  if isinstance_dict v then v
  else match v with
       | VStr s =>
           match json_loads s with
           | Some parsed => parsed
           | None => invalid_record
           end
       | _ => invalid_record
       end.

(** the page made for a top-level value that is replaced as a whole *)
Definition invalid_page (theme : string) : list Flowable :=
  [ Paragraph "<div align='center'>Error Processing Resume</div>" (sty "HeaderName");
    Paragraph "Summary" (sty "SectionHeader");
    add_section_divider (fresh theme);
    Paragraph "Invalid resume data format" (sty "Normal") ].

(** the two paragraphs the outer [except] clause appends *)
Definition failure_blocks (e : exn) : list Flowable :=
  [ Paragraph "Error Processing Resume" (sty "HeaderName");
    Paragraph ("An error occurred while processing this resume: " ++ exn_str e)
      (sty "Normal") ].

(** a JSON text of a mapping, used as a top-level string input *)
Definition quoted (s : string) : string := String dquote (s ++ String dquote "").

Definition json_ann : string :=
  "{" ++ quoted "name" ++ ": " ++ quoted "Ann" ++ ", " ++ quoted "skills"
      ++ ": {" ++ quoted "Languages" ++ ": [" ++ quoted "Python" ++ "]}}".

(** *** the language of the highlighting pattern *)

Fixpoint all_str (p : ascii -> bool) (s : string) : bool :=
  match s with
  | EmptyString => true
  | String c r => p c && all_str p r
  end.

Inductive matches_pattern : string -> Prop :=
| match_is_metric ds c :
    ds <> "" -> all_str is_digit ds = true -> is_metric_end c = true ->
    matches_pattern (ds ++ String c "")
| match_is_amount body :
    body <> "" -> all_str is_amount_char body = true ->
    matches_pattern (String "$" body)
| match_is_keyword w kw :
    In kw keywords -> lower_str w = kw -> matches_pattern w.

Definition prefix_of (w s : string) : Prop := exists tail, s = w ++ tail.

Inductive highlights : string -> list segment -> Prop :=
| hl_end : highlights "" []
| hl_bold w rest segs :
    matches_pattern w ->
    (forall w', matches_pattern w' -> prefix_of w' (w ++ rest) ->
                String.length w' <= String.length w) ->
    highlights rest segs ->
    highlights (w ++ rest) (Bold w :: segs)
| hl_plain c rest segs :
    (forall w, matches_pattern w -> ~ prefix_of w (String c rest)) ->
    highlights rest segs ->
    highlights (String c rest) (Plain c :: segs).

Definition segment_text (g : segment) : string :=
  match g with Plain c => String c "" | Bold w => w end.

Definition plain_text (segs : list segment) : string := flatten (map segment_text segs).

End Spec.

(** ** The storage and service helpers of [main.py]

    The calls of the Cosmos, Blob Storage and OpenAI clients, of the clock and
    of [uuid] are not modelled: what they return or raise is an input of the
    model.  The character classes of the regular expressions are modelled on
    the ASCII range. *)

Module Service.
Import PyStr Py Generator.

(** *** strings *)

(** [s.endswith(suffix)] *)
Definition ends_with (suffix s : string) : bool :=
  String.eqb (drop (String.length s - String.length suffix) s) suffix.

(** [s.split(c)[0]]: the text before the first [c] *)
Fixpoint before_char (c : ascii) (s : string) : string :=
  match s with
  | EmptyString => EmptyString
  | String a r => if Ascii.eqb a c then EmptyString else String a (before_char c r)
  end.

(** the characters [str.strip] removes, on the ASCII range *)
Definition is_space (c : ascii) : bool :=
  let n := nat_of_ascii c in
  (Nat.leb 9 n && Nat.leb n 13) || (Nat.leb 28 n && Nat.leb n 32).

Fixpoint lstrip (s : string) : string :=
  match s with
  | String c r => if is_space c then lstrip r else s
  | EmptyString => EmptyString
  end.

Fixpoint rstrip (s : string) : string :=
  match s with
  | String c r =>
      match rstrip r with
      | EmptyString => if is_space c then EmptyString else String c EmptyString
      | r' => String c r'
      end
  | EmptyString => EmptyString
  end.

(** [s.strip()] *)
Definition strip (s : string) : string := rstrip (lstrip s).

(** [s[7:-3]] *)
Definition cut_fence (s : string) : string :=
  take (String.length s - 3 - 7) (drop 7 s).

(** *** the identifiers of [process_all]:
    [re.sub(r'[^a-zA-Z0-9_-]', '_', s).replace(" ", "_").lower()] *)

Definition is_id_char (c : ascii) : bool :=
  is_lower c || is_upper c || is_digit c || Ascii.eqb c "_" || Ascii.eqb c "-".

Definition sub_id_chars : string -> string :=
  map_chars (fun c => if is_id_char c then c else "_"%char).

Definition replace_space : string -> string :=
  map_chars (fun c => if Ascii.eqb c " " then "_"%char else c).

Definition id_from (s : string) : string :=
  lower_str (replace_space (sub_id_chars s)).

(** *** [store_json] *)

(** how a call of the Cosmos client ends *)
Inductive call (A : Type) : Type :=
| Returns (a : A)
| CosmosHttpResponseError (msg : string)
| OtherException (msg : string).
Arguments Returns {A} a.
Arguments CosmosHttpResponseError {A} msg.
Arguments OtherException {A} msg.

(** what one pass of the loop meets: whether [query_items] finds a document,
    the clock and the UUID read in that case, and how [create_item] ends *)
Record pass : Type := mkPass {
  existing_doc : call bool;
  time_time : Z;
  uuid_hex : string;
  create_item : call unit
}.

(** how [store_json] ends *)
Inductive stored : Type :=
| Returned (id : string)
| HTTPException (status_code : Z) (detail : string)
| Raised (msg : string).

(** [f"{doc_id}_{int(time.time())}_{uuid.uuid4().hex[:8]}"] *)
Definition new_id (doc_id : string) (p : pass) : string :=
  doc_id ++ "_" ++ dec (time_time p) ++ "_" ++ take 8 (uuid_hex p).

(** the [try] block of one pass *)
Definition store_once (doc_id : string) (p : pass) : call string :=
  match existing_doc p with
  | Returns existing =>
      let id := if existing then new_id doc_id p else doc_id in
      match create_item p with
      | Returns _ => Returns id
      | CosmosHttpResponseError msg => CosmosHttpResponseError msg
      | OtherException msg => OtherException msg
      end
  | CosmosHttpResponseError msg => CosmosHttpResponseError msg
  | OtherException msg => OtherException msg
  end.

(** the loop, with the seconds slept so far; [None] when [fuel] runs out *)
Fixpoint store_loop (fuel : nat) (passes : Z -> pass) (doc_id : string)
  (max_retries attempt : Z) (slept : list Z) : option (stored * list Z) :=
  match fuel with
  | O => None
  | S fuel' =>
      if Z.ltb attempt max_retries then
        match store_once doc_id (passes attempt) with
        | Returns id => Some (Returned id, slept)
        | CosmosHttpResponseError _ =>
            let attempt := (attempt + 1)%Z in
            store_loop fuel' passes doc_id max_retries attempt
              (slept ++ [Z.pow 2 attempt])%list
        | OtherException msg => Some (Raised msg, slept)
        end
      else
        Some (HTTPException 500 "Failed to store document after multiple attempts.", slept)
  end.

Definition store_json (passes : Z -> pass) (doc_id : string) (max_retries : Z)
  : option (stored * list Z) :=
  store_loop (S (Z.to_nat max_retries)) passes doc_id max_retries 0 [].

(** *** [save_file_to_blob] *)

(** the characters [re.sub(r'[^\w\/\.\-]', '_', blob_name)] keeps *)
Definition is_blob_char (c : ascii) : bool :=
  is_lower c || is_upper c || is_digit c || Ascii.eqb c "_"
  || Ascii.eqb c "/" || Ascii.eqb c "." || Ascii.eqb c "-".

Fixpoint lstrip_slash (s : string) : string :=
  match s with
  | String c r => if Ascii.eqb c "/" then lstrip_slash r else s
  | EmptyString => EmptyString
  end.

(** the configuration and the outcomes of the calls [save_file_to_blob]
    makes: [uploaded] tells whether every call up to [upload_blob] returned,
    [head_status] is the status of the [HEAD] request, if it returned *)
Record blob_env : Type := mkBlobEnv {
  BLOB_SAS_TOKEN : option string;
  timestamp : string;
  unique_id : string;
  uploaded : bool;
  head_status : option Z;
  blob_client_url : string
}.

(** the token, when [BLOB_SAS_TOKEN] is set and not empty *)
Definition configured_token (env : blob_env) : option string :=
  match BLOB_SAS_TOKEN env with
  | Some t => if String.eqb t "" then None else Some t
  | None => None
  end.

(** [url?token], or [url] when there is no token *)
Definition with_query (url : string) (token : option string) : string :=
  match token with
  | Some t => url ++ "?" ++ t
  | None => url
  end.

Definition blob_base : string := "https://pdf1.blob.core.windows.net/new/".

Definition clean_blob_name (blob_name : string) : string :=
  map_chars (fun c => if is_blob_char c then c else "_"%char) (lstrip_slash blob_name).

(** the name the blob is stored under *)
Definition normalized_blob_name (env : blob_env) (blob_name : string) : string :=
  let blob_name := clean_blob_name blob_name in
  if negb (starts_with "resume_" blob_name) || negb (ends_with ".pdf" blob_name)
  then "resume_" ++ timestamp env ++ "_" ++ take 8 (unique_id env) ++ ".pdf"
  else blob_name.

Definition save_file_to_blob (env : blob_env) (blob_name : string) : string :=
  let blob_name := normalized_blob_name env blob_name in
  if uploaded env then
    let correct_url := blob_base ++ blob_name in
    let sas_token :=
      option_map (fun t => if starts_with "?" t then drop 1 t else t)
        (configured_token env) in
    let correct_url := with_query correct_url sas_token in
    match head_status env with
    | Some status_code =>
        if Z.leb 200 status_code && Z.ltb status_code 300 then correct_url
        else if negb (String.eqb (blob_client_url env) (before_char "?" correct_url))
        then with_query (blob_client_url env) sas_token
        else correct_url
    | None => correct_url
    end
  else
    let direct_url := blob_base ++ blob_name in
    match configured_token env with
    | Some t => if starts_with "?" t then direct_url ++ t else direct_url ++ "?" ++ t
    | None => direct_url
    end.

(** *** the blob URL [get_resumes] and [get_resume] return *)

(** [token in s] for the configured token, which is [None] when the
    environment variable is not set *)
Definition token_in (token : option string) (s : string) : res bool :=
  match token with
  | Some t => Ok (contains t s)
  | None => Raise (TypeError "'in <string>' requires string as left operand, not NoneType")
  end.

Definition token_str (token : option string) : string :=
  match token with
  | Some t => t
  | None => "None"
  end.

Definition pdf1_host : string := "pdf1.blob.core.windows.net".

Definition updated_url (token : option string) (original_url : string) : res string :=
  (let updated_url := original_url in
   needs_token <- (if negb (contains "?" original_url) then Ok true
                   else has <- token_in token original_url ;; Ok (negb has)) ;;
   let updated_url :=
     if needs_token
     then before_char "?" original_url ++ "?" ++ token_str token
     else updated_url in
   let updated_url :=
     if contains "pdf1.blob.core.windows.net/new/resume_" original_url
        && negb (contains "?" original_url)
     then original_url ++ "?" ++ token_str token
     else updated_url in
   let updated_url :=
     if contains pdf1_host original_url
     then before_char "?" original_url ++ "?" ++ token_str token
     else updated_url in
   let updated_url :=
     if contains
          "https://pdf1.blob.core.windows.net/new/resume_20250310_164411_b75f956f.pdf"
          original_url
        && negb (contains "?" original_url)
     then before_char "?" original_url ++ "?" ++ token_str token
     else updated_url in
   Ok updated_url)%res.

(** *** [process_resume_with_openai] *)

Section OpenAI.
Variable json_loads : string -> option value.

Definition unparsed_resume (summary : string) : value :=
  VDict [("type", VStr "resume"); ("filename", VStr "Parsed Resume");
         ("summary", VStr summary)].

(** [content] is the text of the reply, [None] when the request raised *)
Definition process_resume_with_openai (content : option string) : value :=
  match content with
  | Some json_string =>
      let json_string := strip json_string in
      let json_string :=
        if starts_with "```json" json_string then cut_fence json_string
        else json_string in
      match json_loads json_string with
      | Some resume_data =>
          match py_setitem resume_data "type" (VStr "resume") with
          | Ok resume_data => resume_data
          | Raise _ => unparsed_resume "Failed to process resume content."
          end
      | None => unparsed_resume "Failed to parse resume content properly."
      end
  | None => unparsed_resume "Failed to process resume content."
  end.

(** how a helper that reads a reply ends: with the parsed value, or with
    the [HTTPException] of status 500 it raises *)
Inductive parsed : Type :=
| Parsed (v : value)
| HTTP_500 (detail : string).

(** [analyze_job_details], from the reply on; [None] when the request raised *)
Definition analyze_job_details_reply (content : option string) : parsed :=
  match content with
  | Some content =>
      let content := strip content in
      if starts_with "```json" content then
        match json_loads (cut_fence content) with
        | Some v => Parsed v
        | None => HTTP_500 "Failed to parse job details response"
        end
      else if starts_with "{" content then
        match json_loads content with
        | Some v => Parsed v
        | None => HTTP_500 "Failed to parse job details response"
        end
      else HTTP_500 "Failed to analyze job details"
  | None => HTTP_500 "Failed to analyze job details"
  end.

(** [generate_tailored_resume], from the reply on; [None] when the request
    raised an exception that is no [ValueError] *)
Definition generate_tailored_resume_reply (content : option string) : parsed :=
  match content with
  | Some content =>
      let content := strip content in
      if starts_with "```json" content then
        match json_loads (cut_fence content) with
        | Some v => Parsed v
        | None => HTTP_500 "Response could not be parsed as JSON"
        end
      else if negb (starts_with "{" content)
      then HTTP_500 "Response is not in valid JSON format"
      else
        match json_loads content with
        | Some v => Parsed v
        | None => HTTP_500 "Response could not be parsed as JSON"
        end
  | None => HTTP_500 "Failed to generate tailored resume"
  end.

End OpenAI.

End Service.


(** ** The endpoint [process_all]

    The helpers it calls are inputs of the model: each returns a value or
    raises an exception, of which the model keeps the text [str(e)].  The
    PDF is rendered by the generator modelled above. *)

Module Pipeline.
Import PyStr Py ReportLab Generator Service.

(** a call of a helper or of a library: it returns, or raises an exception
    [e] whose text [str(e)] is [msg] *)
Inductive outcome (A : Type) : Type :=
| Fine (a : A)
| Fails (msg : string).
Arguments Fine {A} a.
Arguments Fails {A} msg.

Inductive container : Type :=
| resume_container
| job_container
| tailored_resume_container.

(** the request and the outcomes of the calls [process_all] makes *)
Record world : Type := mkWorld {
  filename : string;
  splitext : string;
  read : outcome unit;
  extract_text_from_pdf : outcome string;
  extract_text_from_docx : outcome string;
  resume_to_json : string -> outcome value;
  analyze_job_details : string -> string -> outcome value;
  generate_tailored_resume : value -> value -> outcome value;
  get_or_create : container -> outcome unit;
  store : container -> string -> value -> outcome string;
  time_of_storing : Z;
  time_of_printing : Z;
  build : list Flowable -> outcome unit;
  upload_pdf_to_azure : string -> option string;
  remove : string -> outcome unit
}.

(** the [process_status] dictionary *)
Record process_status : Type := mkStatus {
  resume_processing : string;
  job_analysis : string;
  tailoring : string;
  pdf_generation : string;
  errors : list string
}.

Definition pending : process_status :=
  mkStatus "pending" "pending" "pending" "pending" [].

Definition add_error (msg : string) (st : process_status) : process_status :=
  mkStatus (resume_processing st) (job_analysis st) (tailoring st) (pdf_generation st)
    (errors st ++ [msg]).

Definition set_resume_processing (v : string) (st : process_status) : process_status :=
  mkStatus v (job_analysis st) (tailoring st) (pdf_generation st) (errors st).

Definition set_job_analysis (v : string) (st : process_status) : process_status :=
  mkStatus (resume_processing st) v (tailoring st) (pdf_generation st) (errors st).

Definition set_tailoring (v : string) (st : process_status) : process_status :=
  mkStatus (resume_processing st) (job_analysis st) v (pdf_generation st) (errors st).

Definition set_pdf_generation (v : string) (st : process_status) : process_status :=
  mkStatus (resume_processing st) (job_analysis st) (tailoring st) v (errors st).

(** what the endpoint answers *)
Inductive reply : Type :=
| RaiseHTTPException (status_code : Z) (detail : string)
| JSONResponse (status_code : Z) (content : value)
| Return (content : value).

Section ProcessAll.
Variable json_loads : string -> option value.
Variable w : world.
Variables title description : string.

(** step 1: the text of the document *)
Definition extract_step (st : process_status) : string * process_status :=
  let extracted :=
    if ends_with ".pdf" (lower_str (filename w))
    then extract_text_from_pdf w
    else extract_text_from_docx w in
  match extracted with
  | Fine resume_text =>
      (resume_text,
       if String.eqb resume_text "" || Nat.ltb (String.length (strip resume_text)) 100
       then add_error "Very little text could be extracted from the resume." st
       else st)
  | Fails msg => ("", add_error ("Failed to extract text: " ++ msg) st)
  end.

Definition minimal_resume : value :=
  VDict [("name", VStr (splitext w)); ("contact", VDict []);
         ("summary", VStr "Error processing resume content");
         ("experience", VList []); ("education", VList []); ("skills", VList [])].

(** step 2: the resume as JSON *)
Definition parse_step (resume_text : string) (st : process_status)
  : value * process_status :=
  match resume_to_json w resume_text with
  | Fine resume_json_data => (resume_json_data, set_resume_processing "complete" st)
  | Fails msg =>
      (minimal_resume,
       set_resume_processing "failed" (add_error ("Failed to parse resume: " ++ msg) st))
  end.

(** [resume_json_data.get("name", file_name)] *)
Definition get_name (resume_json_data : value) (file_name : string) : outcome value :=
  match resume_json_data with
  | VDict d =>
      Fine match dict_get "name" d with
           | Some v => v
           | None => VStr file_name
           end
  | _ => Fails ("'" ++ type_name resume_json_data ++ "' object has no attribute 'get'")
  end.

(** the identifier made of a value; [re.sub] wants a string *)
Definition id_of (v : value) : outcome string :=
  match v with
  | VStr s => Fine (id_from s)
  | _ => Fails ("expected string or bytes-like object, got '" ++ type_name v ++ "'")
  end.

(** step 3: the resume is stored; [resume_name] is [None] as long as the
    local variable is not assigned *)
Definition store_step (resume_json_data : value) (st : process_status)
  : option string * string * process_status :=
  let failed (resume_name : option string) (msg : string) :=
    (resume_name, "temp_" ++ dec (time_of_storing w),
     add_error ("Failed to store resume: " ++ msg) st) in
  match get_or_create w resume_container with
  | Fails msg => failed None msg
  | Fine _ =>
      let file_name := splitext w in
      match get_name resume_json_data file_name with
      | Fails msg => failed None msg
      | Fine name =>
          match id_of name with
          | Fails msg => failed None msg
          | Fine resume_name =>
              match store w resume_container resume_name resume_json_data with
              | Fine resume_id => (Some resume_name, resume_id, st)
              | Fails msg => failed (Some resume_name) msg
              end
          end
      end
  end.

Definition job_placeholder : value :=
  VDict [("Requirements", VDict [("Skills", VList [VStr "Processing error"])]);
         ("Responsibilities", VDict [("Main", VStr "Processing error")]);
         ("Qualifications", VList [VStr "Processing error"])].

(** step 4: the job is analysed and stored *)
Definition job_step (st : process_status) : value * string * process_status :=
  let failed (st : process_status) (msg : string) :=
    (job_placeholder, id_from title,
     set_job_analysis "failed" (add_error ("Failed to analyze job: " ++ msg) st)) in
  match analyze_job_details w title description with
  | Fails msg => failed st msg
  | Fine job_json_data =>
      let st := set_job_analysis "complete" st in
      match get_or_create w job_container with
      | Fails msg => failed st msg
      | Fine _ =>
          let job_id := id_from title in
          match store w job_container job_id job_json_data with
          | Fine job_id => (job_json_data, job_id, st)
          | Fails msg => failed st msg
          end
      end
  end.

(** [resume_json_data.copy()] *)
Definition copy (v : value) : outcome value :=
  match v with
  | VDict _ | VList _ => Fine v
  | _ => Fails ("'" ++ type_name v ++ "' object has no attribute 'copy'")
  end.

Definition unbound_resume_name : string :=
  "cannot access local variable 'resume_name' where it is not associated with a value".

(** [f"{resume_name}_for_{job_id}"] *)
Definition tailored_id (resume_name : option string) (job_id : string) : outcome string :=
  match resume_name with
  | Some name => Fine (name ++ "_for_" ++ job_id)
  | None => Fails unbound_resume_name
  end.

(** step 5: the resume is tailored and stored; an exception raised in the
    [except] clause leaves the step *)
Definition tailor_step (resume_json_data : value) (resume_name : option string)
  (job_json_data : value) (job_id : string) (st : process_status)
  : outcome (value * string * process_status) :=
  let failed (st : process_status) (msg : string) :=
    let st := set_tailoring "failed" (add_error ("Failed to tailor resume: " ++ msg) st) in
    match copy resume_json_data with
    | Fails msg => Fails msg
    | Fine tailored_resume_json =>
        match tailored_id resume_name job_id with
        | Fails msg => Fails msg
        | Fine tailored_resume_id => Fine (tailored_resume_json, tailored_resume_id, st)
        end
    end in
  match generate_tailored_resume w resume_json_data job_json_data with
  | Fails msg => failed st msg
  | Fine tailored_resume_json =>
      let st := set_tailoring "complete" st in
      match get_or_create w tailored_resume_container with
      | Fails msg => failed st msg
      | Fine _ =>
          match tailored_id resume_name job_id with
          | Fails msg => failed st msg
          | Fine tailored_resume_id =>
              match store w tailored_resume_container tailored_resume_id
                      tailored_resume_json with
              | Fine tailored_resume_id =>
                  Fine (tailored_resume_json, tailored_resume_id, st)
              | Fails msg => failed st msg
              end
          end
      end
  end.

Definition error_resume : value :=
  VDict [("name", VStr "Error Processing Resume");
         ("summary", VStr "Error occurred during resume processing")].

(** step 6: the PDF is built and uploaded; the name of the file, or [None] *)
Definition pdf_step (tailored_resume_json : value) (st : process_status)
  : value * process_status :=
  let tailored_resume_json :=
    if isinstance_dict tailored_resume_json then tailored_resume_json
    else match tailored_resume_json with
         | VStr s =>
             match json_loads s with
             | Some parsed => parsed
             | None => error_resume
             end
         | _ => error_resume
         end in
  let temp_pdf_path := "temp_resume_" ++ dec (time_of_printing w) ++ ".pdf" in
  let printed : outcome value :=
    match __init__ "default" with
    | Raise e => Fails (exn_str e)
    | Ok pdf_gen =>
        match process_resume json_loads pdf_gen tailored_resume_json with
        | (Raise e, _) => Fails (exn_str e)
        | (Ok _, (pdf_gen, _)) =>
            match build w (all_content pdf_gen) with
            | Fails msg => Fails msg
            | Fine _ =>
                let pdf_file_name := upload_pdf_to_azure w temp_pdf_path in
                match remove w temp_pdf_path with
                | Fails msg => Fails msg
                | Fine _ =>
                    Fine match pdf_file_name with
                         | Some name => VStr name
                         | None => VNone
                         end
                end
            end
        end
    end in
  match printed with
  | Fine pdf_file_name => (pdf_file_name, set_pdf_generation "complete" st)
  | Fails msg =>
      (VStr "error_generating.pdf",
       set_pdf_generation "failed" (add_error ("Failed to generate PDF: " ++ msg) st))
  end.

Definition overall_status (st : process_status) : string :=
  let overall_status := "success" in
  let overall_status :=
    if existsb (String.eqb "failed")
         [resume_processing st; job_analysis st; tailoring st; pdf_generation st]
    then "partial_success" else overall_status in
  if Nat.leb 3 (List.length (errors st)) then "mostly_failed" else overall_status.

Definition status_json (st : process_status) : value :=
  VDict [("resume_processing", VStr (resume_processing st));
         ("job_analysis", VStr (job_analysis st));
         ("tailoring", VStr (tailoring st));
         ("pdf_generation", VStr (pdf_generation st));
         ("errors", VList (map VStr (errors st)))].

Definition response_data (overall_status resume_id job_id tailored_resume_id : string)
  (pdf_file_name : value) (st : process_status) : value :=
  VDict [("status", VStr overall_status); ("resume_id", VStr resume_id);
         ("job_id", VStr job_id); ("tailored_resume_id", VStr tailored_resume_id);
         ("pdf_url", pdf_file_name); ("process_details", status_json st)].

(** the answer of the outer [except] clause *)
Definition failed_response (msg : string) : reply :=
  JSONResponse 500
    (VDict [("status", VStr "failed"); ("error", VStr msg);
            ("message", VStr "An unexpected error occurred while processing the request.");
            ("file_processed", VStr (filename w))]).

(** whether the file name ends in [.pdf] or [.docx], whatever the case *)
Definition supported : bool :=
  ends_with ".pdf" (lower_str (filename w)) || ends_with ".docx" (lower_str (filename w)).

(** the outer [try] block *)
Definition process_all_try : outcome reply :=
  match read w with
  | Fails msg => Fails msg
  | Fine _ =>
      let '(resume_text, st) := extract_step pending in
      let '(resume_json_data, st) := parse_step resume_text st in
      let '(resume_name, resume_id, st) := store_step resume_json_data st in
      let '(job_json_data, job_id, st) := job_step st in
      match tailor_step resume_json_data resume_name job_json_data job_id st with
      | Fails msg => Fails msg
      | Fine (tailored_resume_json, tailored_resume_id, st) =>
          let '(pdf_file_name, st) := pdf_step tailored_resume_json st in
          let overall_status := overall_status st in
          let response_data :=
            response_data overall_status resume_id job_id tailored_resume_id
              pdf_file_name st in
          Fine (if String.eqb overall_status "mostly_failed"
                then JSONResponse 207 response_data
                else Return response_data)
      end
  end.

Definition process_all : reply :=
  if negb supported
  then RaiseHTTPException 400 "Only PDF and DOCX files are supported"
  else match process_all_try with
       | Fine r => r
       | Fails msg => failed_response msg
       end.

End ProcessAll.

End Pipeline.

(** ** The layout of the sections, as the further properties state it *)

Module Layout.
Import PyStr Py ReportLab Sections Generator Spec.


(** the one block an exception leaves of a section *)
Definition error_block (section : string) (e : exn) : Flowable :=
  Paragraph ("Error processing " ++ section ++ ": " ++ exn_str e) (sty "Error").



(** *** skills *)



(** *** projects *)

(** the header line of a project record *)
Definition project_header (p : list (string * value)) : string :=
  "<table width='100%'><tr>"
  ++ match dict_get "name" p with
     | Some n =>
         "<td><b>" ++ py_str n ++ "</b>"
         ++ match dict_get "date" p with
            | Some d => " (" ++ py_str d ++ ")"
            | None => ""
            end ++ "</td>"
     | None => ""
     end ++ "</tr></table>".



(** *** experience *)


(** the field names [ExperienceSection.process] looks for with [in] *)
Definition experience_fields : list string :=
  ["company"; "date"; "title"; "responsibilities"; "achievements"].

(** whether one of those names occurs in the text [s] *)
Definition mentions_field (s : string) : bool :=
  existsb (fun f => contains f s) experience_fields.

(** what an experience entry without any field comes to *)
Definition empty_experience : list Flowable :=
  [ Paragraph "<table width='100%'><tr><td></td></tr></table>" (sty "ExperienceTitle");
    Spacer 1 10 ].

Definition str_index_error : exn :=
  TypeError "string indices must be integers, not 'str'".



Definition is_bold (g : segment) : bool :=
  match g with Bold _ => true | Plain _ => false end.

(** the number of bold runs the scan of [s] makes *)
Definition bold_runs (s : string) : nat := List.length (filter is_bold (scan 0 s)).

(** *** education *)




(** *** the header *)

(** the value of a field that is present and not empty *)
Definition shown (d : list (string * value)) (field : string) : option value :=
  match dict_get field d with
  | Some v => if truthy v then Some v else None
  | None => None
  end.

(** one centred line of the contact text: the shown fields with their glyphs *)
Definition contact_group (d : list (string * value)) (fields : list (string * string))
  : string :=
  match flat_map (fun gf => match shown d (snd gf) with
                            | Some v => [fst gf ++ py_str v]
                            | None => []
                            end) fields with
  | [] => ""
  | parts => "<div align='center'>" ++ join " | " parts ++ "</div>"
  end.

Definition contact_text (d : list (string * value)) : string :=
  contact_group d [(glyph_email, "email"); (glyph_phone, "phone")]
  ++ contact_group d [(glyph_link, "github"); (glyph_link, "linkedin")].

(** the fields [format_contact_info] reads *)
Definition printed_fields : list string := ["email"; "phone"; "github"; "linkedin"].



End Layout.

(** ** The behaviour of the service helpers, as the further properties state it *)

Module ServiceSpec.
Import PyStr Py ReportLab Sections Generator Spec Service Pipeline.

(** the characters of a stored identifier *)
Definition is_safe_char (c : ascii) : bool :=
  is_lower c || is_digit c || Ascii.eqb c "_" || Ascii.eqb c "-".

(** the seconds slept after the first [k] failed passes: 2, 4, ..., 2^k *)
Definition backoff (k : nat) : list Z :=
  map (fun i => Z.pow 2 (Z.of_nat i)) (seq 1 k).

(** the pass [i] of the loop of [store_json] ends in a Cosmos error *)
Definition failed_pass (passes : Z -> pass) (doc_id : string) (i : nat) : Prop :=
  exists msg, store_once doc_id (passes (Z.of_nat i)) = CosmosHttpResponseError msg.

Definition gave_up : stored :=
  HTTPException 500 "Failed to store document after multiple attempts.".

(** how the loop ends after [k] failed passes *)
Definition ends_at (passes : Z -> pass) (doc_id : string) (max_retries : Z)
  (r : stored) (k : nat) : Prop :=
  match r with
  | Returned id =>
      (Z.of_nat k < max_retries)%Z
      /\ store_once doc_id (passes (Z.of_nat k)) = Returns id
  | HTTPException _ _ => r = gave_up /\ k = Z.to_nat max_retries
  | Raised msg =>
      (Z.of_nat k < max_retries)%Z
      /\ store_once doc_id (passes (Z.of_nat k)) = OtherException msg
  end.

(** the token as it is written after the [?] of a URL *)
Definition query_token (env : blob_env) : option string :=
  option_map (fun t => if starts_with "?" t then drop 1 t else t) (configured_token env).

(** the name given to a blob that does not follow the pattern *)
Definition fresh_blob_name (env : blob_env) : string :=
  "resume_" ++ timestamp env ++ "_" ++ take 8 (unique_id env) ++ ".pdf".

(** whether the status of the [HEAD] request is outside 200..299 *)
Definition rejected (env : blob_env) : bool :=
  match head_status env with
  | Some status_code => negb (Z.leb 200 status_code && Z.ltb status_code 300)
  | None => false
  end.

(** the URL with its query replaced by the token *)
Definition with_token (t original_url : string) : string :=
  before_char "?" original_url ++ "?" ++ t.

(** whether the URL is rewritten: it is on the [pdf1] host, has no query, or
    does not hold the token *)
Definition rewritten (t original_url : string) : bool :=
  contains pdf1_host original_url
  || negb (contains "?" original_url)
  || negb (contains t original_url).

(** the text given to [json.loads] for the reply [text] *)
Definition reply_json (text : string) : string :=
  if starts_with "```json" (strip text) then cut_fence (strip text) else strip text.

(** the text [analyze_job_details] and [generate_tailored_resume] give to
    [json.loads], if they accept the reply *)
Definition accepted_json (text : string) : option string :=
  if starts_with "```json" (strip text) then Some (cut_fence (strip text))
  else if starts_with "{" (strip text) then Some (strip text)
  else None.

(** the resume [process_all] works on after its second step *)
Definition parsed_resume (w : world) : value :=
  fst (parse_step w (fst (extract_step w pending)) (snd (extract_step w pending))).

(** whether no identifier can be made of the name of a resume *)
Definition unusable_name (w : world) (resume_json_data : value) : bool :=
  match get_name resume_json_data (splitext w) with
  | Fine (VStr _) => false
  | _ => true
  end.




(** the world in which the analysis of the job raises [msg] *)
Definition failing_analysis (w : world) (msg : string) : world :=
  mkWorld (filename w) (splitext w) (read w) (extract_text_from_pdf w)
    (extract_text_from_docx w) (resume_to_json w) (fun _ _ => Fails msg)
    (generate_tailored_resume w) (get_or_create w) (store w) (time_of_storing w)
    (time_of_printing w) (build w) (upload_pdf_to_azure w) (remove w).

(** the world in which the tailoring of the resume raises [msg] *)
Definition failing_tailoring (w : world) (msg : string) : world :=
  mkWorld (filename w) (splitext w) (read w) (extract_text_from_pdf w)
    (extract_text_from_docx w) (resume_to_json w) (analyze_job_details w)
    (fun _ _ => Fails msg) (get_or_create w) (store w) (time_of_storing w)
    (time_of_printing w) (build w) (upload_pdf_to_azure w) (remove w).


(** the same request when the resume database cannot be reached *)
Definition offline_world : world :=
  mkWorld "cv.PDF" "cv" (Fine tt) (Fine "Ann Lee, engineer") (Fine "")
    (fun _ => Fine (VDict [("name", VStr "Ann Lee"); ("summary", VStr "Engineer")]))
    (fun _ _ => Fine (VDict [("Requirements", VList [VStr "Python"])]))
    (fun resume_data _ => Fine resume_data)
    (fun c => match c with resume_container => Fails "no route" | _ => Fine tt end)
    (fun c _ _ => Fine "stored")
    1700000000 1700000001
    (fun _ => Fine tt) (fun _ => Some "resume_1.pdf") (fun _ => Fine tt).

(** the same request when the job and the tailored resume cannot be stored *)
Definition readonly_world : world :=
  mkWorld "cv.PDF" "cv" (Fine tt) (Fine "Ann Lee, engineer") (Fine "")
    (fun _ => Fine (VDict [("name", VStr "Ann Lee"); ("summary", VStr "Engineer")]))
    (fun _ _ => Fine (VDict [("Requirements", VList [VStr "Python"])]))
    (fun resume_data _ => Fine (VDict [("name", VStr "Ann Lee, tailored")]))
    (fun _ => Fine tt)
    (fun c _ _ =>
       match c with
       | resume_container => Fine "ann_lee"
       | _ => Fails "read only"
       end)
    1700000000 1700000001
    (fun _ => Fine tt) (fun _ => Some "resume_1.pdf") (fun _ => Fine tt).

End ServiceSpec.

(** ** Strings and the highlighting scan *)

Module HighlightFacts.
Import PyStr Py ReportLab Sections Generator Spec.

Lemma append_assoc (a b c : string) : (a ++ b) ++ c = a ++ (b ++ c).
Proof. induction a; simpl; congruence. Qed.

Lemma append_empty_r (a : string) : a ++ "" = a.
Proof. induction a; simpl; congruence. Qed.

Lemma length_append (a b : string) : String.length (a ++ b) = String.length a + String.length b.
Proof. induction a; simpl; congruence. Qed.

Lemma take_append (a b : string) : take (String.length a) (a ++ b) = a.
Proof. induction a; simpl; congruence. Qed.

Lemma drop_append (a b : string) : drop (String.length a) (a ++ b) = b.
Proof. induction a; simpl; auto. Qed.

Lemma take_drop (n : nat) (s : string) : take n s ++ drop n s = s.
Proof. revert s; induction n; destruct s; simpl; auto. rewrite IHn; auto. Qed.

Lemma length_lower_str s : String.length (lower_str s) = String.length s.
Proof. unfold lower_str; induction s; simpl; congruence. Qed.

Lemma lower_str_take n s : lower_str (take n s) = take n (lower_str s).
Proof. unfold lower_str; revert s; induction n; destruct s; simpl; auto. rewrite IHn; auto. Qed.


Lemma span_split p s : s = span p s ++ drop (String.length (span p s)) s.
Proof. induction s as [|c r IH]; simpl; auto. destruct (p c); simpl; congruence. Qed.

Lemma span_all p s : all_str p (span p s) = true.
Proof. induction s as [|c r IH]; simpl; auto. destruct (p c) eqn:E; simpl; auto. rewrite E; auto. Qed.

Lemma span_append_stop p x c t :
  all_str p x = true -> p c = false -> span p (x ++ String c t) = x.
Proof.
  induction x as [|a x IH]; simpl; intros H Hc.
  - rewrite Hc; reflexivity.
  - apply andb_true_iff in H as [Ha Hx]. rewrite Ha, IH; auto.
Qed.

Lemma span_append_longer p x t :
  all_str p x = true -> exists y, span p (x ++ t) = x ++ y.
Proof.
  induction x as [|a x IH]; simpl; intros H.
  - eauto.
  - apply andb_true_iff in H as [Ha Hx]. rewrite Ha.
    destruct (IH Hx) as [y Hy]. exists y. rewrite Hy; reflexivity.
Qed.

Lemma metric_end_not_digit c : is_metric_end c = true -> is_digit c = false.
Proof.
  unfold is_metric_end. intros H. apply orb_true_iff in H as [H|H];
    apply Ascii.eqb_eq in H; subst; reflexivity.
Qed.

Lemma lower_letter_facts c :
  is_lower (lower c) = true -> is_digit c = false /\ Ascii.eqb c "$" = false.
Proof.
  destruct c as [[] [] [] [] [] [] [] []]; vm_compute; intuition congruence.
Qed.

Lemma keywords_start_lower kw :
  In kw keywords -> exists c r, kw = String c r /\ is_lower c = true.
Proof.
  simpl; intros H; repeat destruct H as [H|H]; subst; try contradiction; eauto.
Qed.

Lemma keywords_prefix_free a b :
  In a keywords -> In b keywords -> starts_with a b = true -> a = b.
Proof.
  simpl; intros Ha Hb;
    repeat destruct Ha as [Ha|Ha]; try contradiction;
    repeat destruct Hb as [Hb|Hb]; try contradiction; subst;
    (reflexivity || (intros H; discriminate H)).
Qed.

Lemma starts_with_take a b : starts_with (take (String.length a) b) b = true.
Proof.
  revert b; induction a as [|x a IH]; destruct b; simpl; auto.
  rewrite Ascii.eqb_refl; simpl; auto.
Qed.

Lemma starts_with_take_eq n a b : take n b = a -> starts_with a b = true.
Proof.
  revert a b; induction n; intros a b H; destruct b; simpl in H; subst; simpl; auto.
  rewrite Ascii.eqb_refl; simpl; eauto.
Qed.

Lemma take_take n m s : n <= m -> take n (take m s) = take n s.
Proof.
  revert m s; induction n; intros m s H; destruct s, m; simpl; auto; try lia.
  rewrite IHn; auto; lia.
Qed.

Lemma match_keyword_sound kws s w :
  match_keyword kws s = Some w ->
  exists kw, In kw kws /\ lower_str w = kw /\ w = take (String.length kw) s.
Proof.
  induction kws as [|kw kws IH]; simpl; [discriminate|].
  destruct (String.eqb_spec (lower_str (take (String.length kw) s)) kw) as [E|E].
  - intros H; injection H as <-. exists kw; auto.
  - intros H. destruct (IH H) as (k & ? & ? & ?). exists k; auto.
Qed.

Lemma match_keyword_complete kws s kw :
  In kw kws -> lower_str (take (String.length kw) s) = kw ->
  exists w, match_keyword kws s = Some w.
Proof.
  induction kws as [|k kws IH]; simpl; [contradiction|].
  intros [->|Hin] H.
  - rewrite H, String.eqb_refl; eauto.
  - destruct (String.eqb (lower_str (take (String.length k) s)) k); eauto.
Qed.

Lemma keyword_unique s a b :
  In a keywords -> In b keywords ->
  lower_str (take (String.length a) s) = a ->
  lower_str (take (String.length b) s) = b -> a = b.
Proof.
  intros Ha Hb Ea Eb.
  destruct (Nat.le_ge_cases (String.length a) (String.length b)) as [L|L].
  - apply keywords_prefix_free; auto.
    apply starts_with_take_eq with (n := String.length a).
    rewrite <- Eb at 1. rewrite <- lower_str_take, take_take; auto.
  - symmetry. apply keywords_prefix_free; auto.
    apply starts_with_take_eq with (n := String.length b).
    rewrite <- Ea at 1. rewrite <- lower_str_take, take_take; auto.
Qed.

Lemma matches_nonempty w : matches_pattern w -> w <> "".
Proof.
  intros [ds c Hd _ _|body _ _|w' kw Hin Hl].
  - destruct ds; simpl; discriminate.
  - discriminate.
  - destruct (keywords_start_lower kw Hin) as (c & r & -> & _).
    destruct w'; simpl in Hl; discriminate.
Qed.

Lemma match_metric_sound s w :
  match_metric s = Some w -> matches_pattern w /\ prefix_of w s.
Proof.
  unfold match_metric. cbv zeta. pose proof (span_split is_digit s) as Hs.
  pose proof (span_all is_digit s) as Ha.
  destruct (drop (String.length (span is_digit s)) s) as [|c r]; [discriminate|].
  destruct (String.eqb_spec (span is_digit s) "") as [E|E]; [discriminate|].
  destruct (is_metric_end c) eqn:Ec; [|discriminate].
  simpl. intros H; injection H as <-. split.
  - apply match_is_metric; auto.
  - exists r. rewrite append_assoc. exact Hs.
Qed.

Lemma match_amount_sound s w :
  match_amount s = Some w -> matches_pattern w /\ prefix_of w s.
Proof.
  unfold match_amount. destruct s as [|c r]; [discriminate|].
  destruct (Ascii.eqb_spec c "$") as [->|]; [|discriminate].
  pose proof (span_split is_amount_char r) as Hs.
  pose proof (span_all is_amount_char r) as Ha.
  destruct (span is_amount_char r) as [|b body] eqn:E; [discriminate|].
  intros H; injection H as <-. split.
  - apply (match_is_amount (String b body)); auto; discriminate.
  - exists (drop (String.length (String b body)) r). simpl. f_equal. exact Hs.
Qed.

Lemma match_at_sound s w :
  match_at s = Some w -> matches_pattern w /\ prefix_of w s.
Proof.
  unfold match_at.
  destruct (match_metric s) eqn:E1.
  { intros H; injection H as <-. apply match_metric_sound; auto. }
  destruct (match_amount s) eqn:E2.
  { intros H; injection H as <-. apply match_amount_sound; auto. }
  intros H. destruct (match_keyword_sound _ _ _ H) as (kw & Hin & Hl & Hw).
  split.
  - econstructor; eauto.
  - exists (drop (String.length kw) s). rewrite Hw. symmetry; apply take_drop.
Qed.

Lemma match_metric_not_digit c r : is_digit c = false -> match_metric (String c r) = None.
Proof. unfold match_metric; simpl; intros ->; reflexivity. Qed.

Lemma match_amount_not_dollar c r : Ascii.eqb c "$" = false -> match_amount (String c r) = None.
Proof. unfold match_amount; intros ->; reflexivity. Qed.

Lemma match_at_complete s w' :
  matches_pattern w' -> prefix_of w' s ->
  exists w, match_at s = Some w /\ String.length w' <= String.length w.
Proof.
  intros Hm [tail ->]. destruct Hm as [ds c Hd Ha Hc|body Hb Ha|w' kw Hin Hl].
  - exists (ds ++ String c ""). split; auto.
    rewrite append_assoc. change (String c "" ++ tail) with (String c tail).
    unfold match_at, match_metric. cbv zeta.
    rewrite (span_append_stop is_digit ds c tail Ha (metric_end_not_digit c Hc)).
    rewrite drop_append, Hc.
    destruct (String.eqb_spec ds ""); [congruence|reflexivity].
  - unfold match_at. simpl append.
    rewrite match_metric_not_digit by reflexivity.
    unfold match_amount. simpl.
    destruct (span_append_longer is_amount_char body tail Ha) as [y Hy].
    rewrite Hy. destruct body; [congruence|]. simpl.
    eexists; split; [reflexivity|]. simpl. rewrite length_append. lia.
  - destruct (keywords_start_lower kw Hin) as (c & r & Hk & Hc).
    assert (Hlen : String.length w' = String.length kw)
      by (rewrite <- Hl; symmetry; apply length_lower_str).
    destruct w' as [|a w']; [subst kw; simpl in Hk; discriminate|].
    assert (Hlow : is_lower (lower a) = true).
    { rewrite Hk in Hl. simpl in Hl. injection Hl as -> _. exact Hc. }
    destruct (lower_letter_facts a Hlow) as [Hnd Hn].
    unfold match_at. simpl append.
    rewrite match_metric_not_digit, match_amount_not_dollar by auto.
    assert (Hpre : lower_str (take (String.length kw) (String a w' ++ tail)) = kw).
    { rewrite <- Hlen, take_append. exact Hl. }
    destruct (match_keyword_complete keywords _ kw Hin Hpre) as [w Hw].
    exists w; split; [exact Hw|].
    destruct (match_keyword_sound _ _ _ Hw) as (k & Hk1 & Hk2 & Hk3).
    assert (Hkk : k = kw).
    { apply (keyword_unique (String a w' ++ tail)); auto. rewrite <- Hk3. exact Hk2. }
    rewrite Hkk in Hk2. rewrite Hlen, <- Hk2, length_lower_str. lia.
Qed.

Lemma scan_skip w rest : scan (String.length w) (w ++ rest) = scan 0 rest.
Proof. induction w; simpl; auto. Qed.

Lemma scan_highlights_bounded n : forall s, String.length s <= n -> highlights s (scan 0 s).
Proof.
  induction n as [|n IH]; intros s Hlen.
  - destruct s; simpl in Hlen; [constructor|lia].
  - destruct s as [|c r]; [constructor|].
    simpl scan. destruct (match_at (String c r)) as [w|] eqn:E.
    + destruct (match_at_sound _ _ E) as [Hm [tail Ht]].
      pose proof (matches_nonempty _ Hm) as Hne.
      destruct w as [|a w]; [congruence|].
      simpl in Ht. injection Ht as <- ->.
      replace (String.length (String c w) - 1) with (String.length w)
        by (simpl; lia).
      rewrite scan_skip.
      change (String c (w ++ tail)) with (String c w ++ tail).
      constructor; auto.
      * intros w' Hw' Hp. destruct (match_at_complete _ _ Hw' Hp) as (w2 & E2 & Hle).
        simpl in E2. rewrite E in E2. injection E2 as <-. exact Hle.
      * apply IH. simpl in Hlen. rewrite length_append in Hlen. lia.
    + constructor.
      * intros w Hw Hp. destruct (match_at_complete _ _ Hw Hp) as (w2 & E2 & _).
        congruence.
      * apply IH. simpl in Hlen. lia.
Qed.

Lemma highlights_text s segs : highlights s segs -> plain_text segs = s.
Proof.
  induction 1; unfold plain_text in *; simpl; congruence.
Qed.

Lemma scan_highlights s : highlights s (scan 0 s).
Proof. apply (scan_highlights_bounded (String.length s)). auto. Qed.

End HighlightFacts.

(** ** The generator: construction, sections and assembly *)

Module GeneratorFacts.
Import PyStr Py ReportLab Sections Generator Spec.

Lemma theme_colors_default theme : _get_theme_colors theme = default_theme.
Proof.
  unfold _get_theme_colors, themes, themes_find.
  destruct (String.eqb "default" theme); reflexivity.
Qed.

Lemma setup_styles_catalog theme : setup_styles theme getSampleStyleSheet = Ok catalog.
Proof. unfold setup_styles. rewrite theme_colors_default. reflexivity. Qed.

Lemma init_fresh theme : __init__ theme = Ok (fresh theme).
Proof.
  unfold __init__. rewrite setup_styles_catalog, theme_colors_default. reflexivity.
Qed.

Lemma sheet_find_app name (a b : list (string * ParagraphStyle)) :
  sheet_find name (a ++ b)%list
  = match sheet_find name a with
    | Some st => Some st
    | None => sheet_find name b
    end.
Proof.
  induction a as [|[n st] a IH]; simpl; auto.
  destruct (String.eqb n name); auto.
Qed.

Lemma sheet_getitem_app (sheet added : list (string * ParagraphStyle)) name st :
  sheet_find name sheet = Some st -> sheet_getitem (sheet ++ added)%list name = Ok st.
Proof. intros H. unfold sheet_getitem. rewrite sheet_find_app, H. reflexivity. Qed.

Lemma sheet_add_app (sheet added : list (string * ParagraphStyle)) st :
  sheet_find (style_name st) sheet = None ->
  sheet_find (style_name st) added = None ->
  sheet_add (sheet ++ added)%list st = Ok (sheet ++ (added ++ [(style_name st, st)]))%list.
Proof.
  intros H1 H2. unfold sheet_add. rewrite sheet_find_app, H1, H2, app_assoc. reflexivity.
Qed.

Lemma setup_styles_on_any_sheet theme (sheet : list (string * ParagraphStyle)) normal h1 h2 :
  sheet_find "Normal" sheet = Some normal ->
  sheet_find "Heading1" sheet = Some h1 ->
  sheet_find "Heading2" sheet = Some h2 ->
  (forall name, In name custom_styles -> sheet_find name sheet = None) ->
  exists added,
    setup_styles theme sheet = Ok (sheet ++ added)%list
    /\ map fst added = custom_styles.
Proof.
  intros Hn H1 H2 Hfresh.
  assert (Hf : forall name, In name custom_styles -> forall (added : list (string * ParagraphStyle)) props parent,
               sheet_find name added = None ->
               sheet_add (sheet ++ added)%list (mkStyle name parent props)
               = Ok (sheet ++ (added ++ [(name, mkStyle name parent props)]))%list).
  { intros name Hin added props parent Ha.
    apply (sheet_add_app sheet added (mkStyle name parent props)); auto. }
  unfold setup_styles.
  unfold sheet_getitem at 1. rewrite H1. cbn [bind].
  unfold sheet_add at 1. cbn [style_name].
  rewrite (Hfresh "HeaderName") by (simpl; tauto). cbn [bind].
  unfold styles_config, add_configured.
  repeat (match goal with
          | |- context [sheet_getitem (?a ++ ?b)%list "Normal"] =>
              rewrite (sheet_getitem_app a b "Normal" normal Hn)
          | |- context [sheet_getitem (?a ++ ?b)%list "Heading2"] =>
              rewrite (sheet_getitem_app a b "Heading2" h2 H2)
          end;
          cbn [bind];
          match goal with
          | |- context [sheet_add (sheet ++ ?b)%list (mkStyle ?n ?p ?ps)] =>
              rewrite (Hf n ltac:(simpl; tauto) b ps p eq_refl)
          end;
          cbn [bind]).
  eexists. split; reflexivity.
Qed.

(** lookups in [catalog] of the names it holds are replaced by their result *)
Ltac resolve_styles :=
  repeat match goal with
    | |- context [sheet_get catalog ?name (sheet_getitem catalog ?other)] =>
        change (sheet_get catalog name (sheet_getitem catalog other)) with (Ok (sty name))
    | |- context [sheet_getitem catalog ?name] =>
        change (sheet_getitem catalog name) with (Ok (sty name))
    end.

Ltac reduce_state :=
  cbn [bind fst snd gen fresh colors Generator.theme styles header_elements
         main_content app].

Lemma process_section_gen theme hdr main key v :
  process_section (gen theme hdr main) key v = process_section (fresh theme) key v.
Proof. reflexivity. Qed.

Lemma process_section_total theme hdr main key v :
  process_section (gen theme hdr main) key v
  = Ok (elements_of (process_section (fresh theme) key v)).
Proof.
  rewrite process_section_gen. unfold process_section.
  destruct (process_section_try (fresh theme) key v); reflexivity.
Qed.

Section Assembly.
Variable json_loads : string -> option value.
Variable th : string.

Lemma emit_section_gen hdr main x key (content : M value) v :
  (forall main', content (gen th hdr main', x) = (Ok v, (gen th hdr main', x))) ->
  emit_section key content (gen th hdr main, x)
  = (Ok tt, (gen th hdr (main ++ section_blocks th key v), x)).
Proof.
  intros Hc. unfold emit_section, mbind, get_self, lift, append_main, extend_main.
  cbn [fst snd styles gen]. resolve_styles.
  cbn [fst snd styles gen colors Generator.theme header_elements main_content].
  match goal with
  | |- context [content (?g, x)] =>
      change g with (gen th hdr ((main ++ [Paragraph (section_title key) (sty "SectionHeader")])
                                   ++ [add_section_divider (gen th hdr main)]))
  end.
  rewrite Hc, process_section_total.
  cbn [fst snd styles gen colors Generator.theme header_elements main_content].
  unfold section_blocks, gen. rewrite <- !app_assoc. reflexivity.
Qed.

Lemma dict_get_set_same k v d : dict_get k (dict_set k v d) = Some v.
Proof.
  induction d as [|[k' v'] d IH]; simpl.
  - rewrite String.eqb_refl; reflexivity.
  - destruct (String.eqb k' k) eqn:E; simpl.
    + rewrite String.eqb_refl; reflexivity.
    + rewrite E; exact IH.
Qed.

Lemma dict_get_set_other k k' v d : k' <> k -> dict_get k' (dict_set k v d) = dict_get k' d.
Proof.
  intros Hne. induction d as [|[k0 v0] d IH]; simpl.
  - destruct (String.eqb_spec k k'); [congruence|reflexivity].
  - destruct (String.eqb_spec k0 k) as [->|]; simpl.
    + destruct (String.eqb_spec k k'); [congruence|reflexivity].
    + destruct (String.eqb k0 k'); auto.
Qed.

Lemma dict_set_same k v d : dict_get k d = Some v -> dict_set k v d = d.
Proof.
  induction d as [|[k' v'] d IH]; simpl; [discriminate|].
  destruct (String.eqb_spec k' k) as [->|].
  - intros H; injection H as ->; reflexivity.
  - intros H. rewrite IH; auto.
Qed.

Lemma truthy_canonical x : truthy x = true -> truthy (canonical_education x) = true.
Proof. destruct x; simpl; auto. Qed.

Lemma fixed_section_plain es hdr main d section :
  String.eqb section "education" = false ->
  fixed_section es section (gen th hdr main, VDict d)
  = (Ok tt, (gen th hdr (main ++ present_blocks th d section), VDict d)).
Proof.
  intros He. unfold fixed_section, present_blocks, mbind, get_data, lift, ret, try_except.
  cbn [fst snd py_in py_getitem]. unfold dict_has.
  destruct (dict_get section d) as [x|] eqn:E.
  - destruct (truthy x) eqn:T.
    + rewrite He. rewrite emit_section_gen with (v := x); [reflexivity|].
      intros main'. unfold mbind, get_data, lift. cbn [fst snd py_getitem].
      rewrite E. reflexivity.
    + rewrite app_nil_r. reflexivity.
  - rewrite app_nil_r. reflexivity.
Qed.

Lemma fixed_section_education es hdr main d :
  fixed_section es "education" (gen th hdr main, VDict d)
  = (Ok tt, (gen th hdr (main ++ present_blocks th (canonical_record d) "education"),
             VDict (canonical_record d))).
Proof.
  unfold fixed_section, present_blocks, canonical_record, mbind, get_data, lift, ret,
    try_except.
  cbn [fst snd py_in py_getitem]. unfold dict_has.
  destruct (dict_get "education" d) as [x|] eqn:E.
  - destruct (truthy x) eqn:T.
    + rewrite dict_get_set_same, (truthy_canonical x T).
      change (String.eqb "education" "education") with true. cbv iota.
      unfold validate_education, mbind, get_data, lift, set_data.
      cbn [fst snd py_getitem]. rewrite E.
      assert (Hread : forall main',
                 (fun st : frame =>
                    match get_data st with
                    | (Ok a, st') => lift (py_getitem a "education") st'
                    | (Raise e, st') => (Raise e, st')
                    end) (gen th hdr main', VDict (dict_set "education" (canonical_education x) d))
                 = (Ok (canonical_education x),
                    (gen th hdr main', VDict (dict_set "education" (canonical_education x) d)))).
      { intros main'. unfold get_data, lift. cbn [fst snd py_getitem].
        rewrite dict_get_set_same. reflexivity. }
      destruct x; cbn [py_setitem fst snd canonical_education] in *;
        try (rewrite emit_section_gen with (v := _) by exact Hread; reflexivity).
      rewrite (dict_set_same _ _ _ E).
      unfold ret. rewrite emit_section_gen with (v := VList l); [reflexivity|].
      intros main'. cbn [fst snd py_getitem]. rewrite E. reflexivity.
    + rewrite E, T, app_nil_r. reflexivity.
  - rewrite E, app_nil_r. reflexivity.
Qed.

Lemma present_blocks_canonical d section :
  String.eqb section "education" = false ->
  present_blocks th (canonical_record d) section = present_blocks th d section.
Proof.
  intros He. apply String.eqb_neq in He.
  unfold present_blocks, canonical_record.
  destruct (dict_get "education" d) as [x|]; auto.
  destruct (truthy x); auto.
  rewrite dict_get_set_other; auto.
Qed.

Lemma fixed_sections_dict es hdr main d :
  for_ (fixed_section es) section_order (gen th hdr main, VDict d)
  = (Ok tt, (gen th hdr (main ++ fixed_blocks th (canonical_record d)),
             VDict (canonical_record d))).
Proof.
  unfold section_order, for_, mbind.
  rewrite (fixed_section_plain es _ _ _ "summary") by reflexivity.
  rewrite (fixed_section_plain es _ _ _ "skills") by reflexivity.
  rewrite (fixed_section_plain es _ _ _ "experience") by reflexivity.
  rewrite fixed_section_education.
  rewrite (fixed_section_plain es _ _ _ "projects") by reflexivity.
  rewrite (fixed_section_plain es _ _ _ "certifications") by reflexivity.
  rewrite (fixed_section_plain es _ _ _ "publications") by reflexivity.
  unfold ret, fixed_blocks, section_order, flat_map.
  rewrite (present_blocks_canonical d "summary") by reflexivity.
  rewrite (present_blocks_canonical d "skills") by reflexivity.
  rewrite (present_blocks_canonical d "experience") by reflexivity.
  rewrite app_nil_r, <- !app_assoc. reflexivity.
Qed.

Lemma other_blocks_cons item items :
  other_blocks th (item :: items)
  = ((if is_other item then section_blocks th (fst item) (snd item) else [])
       ++ other_blocks th items)%list.
Proof.
  unfold other_blocks. simpl. destruct (is_other item); reflexivity.
Qed.

Lemma other_sections_gen es items : forall hdr main x,
  for_ (other_section es) items (gen th hdr main, x)
  = (Ok tt, (gen th hdr (main ++ other_blocks th items), x)).
Proof.
  induction items as [|[key value] items IH]; intros hdr main x.
  - unfold other_blocks. simpl. rewrite app_nil_r. reflexivity.
  - rewrite other_blocks_cons. cbn [for_]. unfold mbind at 1.
    unfold other_section, is_other. cbn [fst snd].
    destruct (negb (in_list key skip_fields) && negb (is_none value)).
    + unfold try_except. rewrite emit_section_gen with (v := value) by reflexivity.
      rewrite IH, <- app_assoc. reflexivity.
    + unfold ret. rewrite IH. reflexivity.
Qed.


(** every way through [create_header_section]: the value after its own
    validation, and the outcomes of the tests on it *)
Ltac header_cases v :=
  unfold header_blocks, create_header_section, try_except, mbind, get_self, lift,
    append_header, ret, header_style_of;
  cbn [fst snd styles gen fresh colors Generator.theme header_elements main_content];
  resolve_styles; cbv iota beta;
  set (rd := if isinstance_dict v then v else _);
  generalize (has_contact_info rd) (format_contact_info rd) (py_getitem rd "name")
    (py_in "name" rd) (isinstance_dict rd);
  intros hc fc gn pin isd;
  destruct isd; destruct pin as [[|]|?]; destruct gn as [n|?]; cbn [bind];
  try destruct (truthy n); destruct hc as [[|]|?];
  reduce_state; resolve_styles; reduce_state.

Lemma create_header_gen hdr main x v :
  create_header_section json_loads v (gen th hdr main, x)
  = (Ok tt, (gen th (hdr ++ header_blocks json_loads th v) main, x)).
Proof. header_cases v; rewrite <- ?app_assoc; reflexivity. Qed.

Lemma header_blocks_shape v :
  header_blocks json_loads th v <> [] /\ Forall header_block (header_blocks json_loads th v).
Proof.
  header_cases v;
    (split;
     [ discriminate
     | repeat (apply Forall_cons;
               [ first [ left; reflexivity | right; reflexivity | split; reflexivity ] | ]);
       apply Forall_nil ]).
Qed.

Lemma assemble_dict es hdr main d :
  assemble json_loads es (gen th hdr main, VDict d)
  = (Ok tt,
     (gen th (hdr ++ header_blocks json_loads th (VDict d))
        (main ++ fixed_blocks th (canonical_record d) ++ other_blocks th (canonical_record d)),
      VDict (canonical_record d))).
Proof.
  unfold assemble, mbind at 1 2 3. unfold get_data at 1. cbn [fst snd].
  rewrite create_header_gen, fixed_sections_dict.
  unfold mbind, get_data, lift. cbn [fst snd py_items].
  rewrite other_sections_gen, <- app_assoc. reflexivity.
Qed.

End Assembly.

End GeneratorFacts.

(** ** Loops over lists and the default handling *)

Module DefaultFacts.
Import PyStr Py ReportLab Sections Generator Spec GeneratorFacts.



Lemma for_each_map {A B} (f : A -> res (list B)) (g : A -> B) (items : list A) :
  (forall x, f x = Ok [g x]) -> for_each f items = Ok (map g items).
Proof.
  intros Hf. induction items as [|x items IH]; simpl; auto.
  rewrite Hf, IH. reflexivity.
Qed.






End DefaultFacts.

(** ** [process_resume] on every kind of top-level value *)

Module ResumeFacts.
Import PyStr Py ReportLab Sections Generator Spec GeneratorFacts.

Section Resume.
Variable json_loads : string -> option value.
Variable th : string.

Lemma validate_record_gen hdr main v :
  validate_record json_loads (gen th hdr main, v)
  = (Ok tt, (gen th hdr main, validated json_loads v)).
Proof.
  unfold validate_record, validated, mbind, get_data, set_data, ret. cbn [fst snd].
  destruct (isinstance_dict v); [reflexivity|].
  destruct v; try reflexivity. destruct (json_loads s); reflexivity.
Qed.

Lemma fixed_section_nondict es st section :
  isinstance_dict (snd st) = false ->
  fixed_section es section st = (Ok tt, st)
  \/ exists e, fixed_section es section st = (Raise e, st).
Proof.
  destruct st as [g v]. cbn [snd]. intros Hv.
  unfold fixed_section, mbind, get_data, lift, ret. cbn [fst snd].
  destruct v; try discriminate; cbn [py_in]; eauto.
  - destruct (contains section s); cbn [py_getitem]; eauto.
  - destruct (existsb (eq_str section) l); cbn [py_getitem]; eauto.
Qed.

Lemma fixed_sections_nondict es st sections :
  isinstance_dict (snd st) = false ->
  for_ (fixed_section es) sections st = (Ok tt, st)
  \/ exists e, for_ (fixed_section es) sections st = (Raise e, st).
Proof.
  intros Hv. induction sections as [|section sections IH]; [left; reflexivity|].
  cbn [for_]. unfold mbind.
  destruct (fixed_section_nondict es st section Hv) as [E|[e E]]; rewrite E; eauto.
Qed.

Lemma assemble_nondict es hdr main v :
  isinstance_dict v = false ->
  exists e, assemble json_loads es (gen th hdr main, v)
            = (Raise e, (gen th (hdr ++ header_blocks json_loads th v) main, v)).
Proof.
  intros Hv. unfold assemble, mbind at 1 2 3. unfold get_data at 1. cbn [fst snd].
  rewrite create_header_gen.
  destruct (fixed_sections_nondict es
              (gen th (hdr ++ header_blocks json_loads th v) main, v) section_order Hv)
    as [E|[e E]]; rewrite E; [|eauto].
  unfold mbind, get_data, lift. cbn [fst snd].
  destruct v; try discriminate; cbn [py_items]; eauto.
Qed.

Lemma process_resume_dict hdr main v d :
  validated json_loads v = VDict d ->
  process_resume json_loads (gen th hdr main) v
  = (Ok tt,
     (gen th (hdr ++ header_blocks json_loads th (VDict d))
        (main ++ fixed_blocks th (canonical_record d) ++ other_blocks th (canonical_record d)),
      VDict (canonical_record d))).
Proof.
  intros Hv. unfold process_resume, header_style_of. cbn [styles gen].
  resolve_styles. cbn [bind]. unfold try_except, process_resume_try, mbind.
  rewrite validate_record_gen, Hv, assemble_dict. reflexivity.
Qed.

Lemma process_resume_nondict hdr main v :
  isinstance_dict (validated json_loads v) = false ->
  exists e,
    process_resume json_loads (gen th hdr main) v
    = (Ok tt,
       (gen th (hdr ++ header_blocks json_loads th (validated json_loads v))
          (main ++ failure_blocks e),
        validated json_loads v)).
Proof.
  intros Hv. unfold process_resume, header_style_of. cbn [styles gen].
  resolve_styles. cbn [bind]. unfold try_except, process_resume_try, mbind.
  rewrite validate_record_gen.
  destruct (assemble_nondict (sty "Error") hdr main _ Hv) as [e E]. rewrite E.
  exists e. unfold append_main, extend_main, get_self, lift. cbn [fst snd styles gen].
  resolve_styles. reduce_state.
  unfold failure_blocks, gen. rewrite <- app_assoc. reflexivity.
Qed.





Lemma render_nondict v :
  isinstance_dict (validated json_loads v) = false ->
  exists e,
    render json_loads th v
    = Ok (header_blocks json_loads th (validated json_loads v) ++ failure_blocks e)%list.
Proof.
  intros Hv. unfold render. rewrite init_fresh. unfold fresh.
  destruct (process_resume_nondict [] [] v Hv) as [e E]. exists e. rewrite E. reflexivity.
Qed.

Lemma render_invalid v :
  validated json_loads v = invalid_record ->
  render json_loads th v = Ok (invalid_page th).
Proof.
  intros Hv. unfold render. rewrite init_fresh. unfold fresh.
  rewrite (process_resume_dict [] [] v _ Hv). reflexivity.
Qed.

End Resume.

End ResumeFacts.

(** ** Facts about single sections *)

Module SectionFacts.
Import PyStr Py ReportLab Sections Generator Spec HighlightFacts GeneratorFacts DefaultFacts.

Lemma init_inv theme self : __init__ theme = Ok self -> self = fresh theme.
Proof. rewrite init_fresh. intros H; injection H as <-; reflexivity. Qed.





Lemma experience_header_no_company d :
  dict_has "company" d = false ->
  experience_header (VDict d)
  = Ok ("<table width='100%'><tr><td></td>"
        ++ match dict_get "date" d with
           | Some date => "<td align='right'>" ++ py_str date ++ "</td>"
           | None => ""
           end ++ "</tr></table>").
Proof.
  intros Hc. unfold experience_header. cbn [py_in bind]. rewrite Hc. cbn [bind].
  unfold dict_has, py_getitem, _format_date_range.
  destruct (dict_get "date" d); reflexivity.
Qed.


Lemma dict_set_keys k v x d :
  dict_get k d = Some x -> map fst (dict_set k v d) = map fst d.
Proof.
  induction d as [|[k' v'] d IH]; simpl; [discriminate|].
  destruct (String.eqb_spec k' k) as [->|]; simpl; [reflexivity|].
  intros H. rewrite IH; auto.
Qed.

(** Two sections whose handlers raise are each replaced by one error block,
    and the section after them is rendered. *)
Example failing_sections_do_not_stop_the_rest :
  forall json_loads : string -> option value,
    render json_loads "default"
      (VDict [("skills", VList [VInt 1]); ("experience", VList [VInt 5]);
              ("projects", VList [VDict [("name", VStr "Parser")]])])
    = Ok [ Paragraph "<div align='center'>Resume</div>" (sty "HeaderName");
           Paragraph "Skills" (sty "SectionHeader");
           add_section_divider (fresh "default");
           Paragraph "Error processing skills: 'list' object has no attribute 'items'"
             (sty "Error");
           Paragraph "Experience" (sty "SectionHeader");
           add_section_divider (fresh "default");
           Paragraph "Error processing experience: argument of type 'int' is not iterable"
             (sty "Error");
           Paragraph "Projects" (sty "SectionHeader");
           add_section_divider (fresh "default");
           Paragraph "<table width='100%'><tr><td><b>Parser</b></td></tr></table>"
             (sty "JobTitle");
           Spacer 1 5 ].
Proof. intros json_loads. reflexivity. Qed.

End SectionFacts.

(** ** The properties of the specification *)

Import PyStr Py ReportLab Sections Generator Spec.
Import HighlightFacts GeneratorFacts DefaultFacts ResumeFacts SectionFacts.






(** C3 (amended).  For a top-level value that is not a dictionary and is not
    a string that [json.loads] turns into a dictionary, rendering raises
    nothing and gives an error document.  For a value that is no string, or a
    string that is not JSON, the document is the header "Error Processing
    Resume", the section title "Summary", a divider and the paragraph
    "Invalid resume data format".  For a string that parses to a JSON value
    other than a dictionary it is the header blocks followed by the heading
    "Error Processing Resume" and the paragraph "An error occurred while
    processing this resume: ..."; no section is rendered. *)
Theorem C3_unusable_record_gives_error_page :
  forall (json_loads : string -> option value) (theme : string) (v : value),
    isinstance_dict v = false ->
    (forall (s : string) (d : list (string * value)),
        v = VStr s -> json_loads s <> Some (VDict d)) ->
    ((forall s : string, v <> VStr s) ->
     render json_loads theme v = Ok (invalid_page theme))
    /\ (forall s : string,
           v = VStr s -> json_loads s = None ->
           render json_loads theme v = Ok (invalid_page theme))
    /\ (forall (s : string) (parsed : value),
           v = VStr s -> json_loads s = Some parsed ->
           exists e : exn,
             render json_loads theme v
             = Ok (header_blocks json_loads theme parsed ++ failure_blocks e)%list
             /\ header_blocks json_loads theme parsed <> []
             /\ Forall header_block (header_blocks json_loads theme parsed)).
Proof.
  intros json_loads theme v Hv Hparse. split; [|split].
  - intros Hs. apply render_invalid. unfold validated. rewrite Hv.
    destruct v; try reflexivity. elim (Hs s). reflexivity.
  - intros s -> Hnone. apply render_invalid. unfold validated. cbn [isinstance_dict].
    rewrite Hnone. reflexivity.
  - intros s parsed -> Hsome.
    assert (Hval : validated json_loads (VStr s) = parsed).
    { unfold validated. cbn [isinstance_dict]. rewrite Hsome. reflexivity. }
    assert (Hnd : isinstance_dict parsed = false).
    { destruct parsed; try reflexivity. elim (Hparse s d eq_refl Hsome). }
    destruct (render_nondict json_loads theme (VStr s)) as [e He].
    { rewrite Hval. exact Hnd. }
    rewrite Hval in He. exists e. split; [exact He|].
    apply header_blocks_shape.
Qed.

Lemma C3_witness :
  isinstance_dict VNone = false
  /\ render JsonLite.json_loads "default" VNone = Ok (invalid_page "default").
Proof.
  split; [reflexivity|].
  apply (C3_unusable_record_gives_error_page JsonLite.json_loads "default" VNone eq_refl).
  - intros s d H. discriminate H.
  - intros s H. discriminate H.
Defined.

(** The claim C3 as stated fails for a string that holds the JSON text of a
    mapping: it is parsed and its sections are rendered. *)
Lemma C3_counterexample :
  isinstance_dict (VStr json_ann) = false
  /\ render JsonLite.json_loads "default" (VStr json_ann)
     = Ok [ Paragraph "<div align='center'>Ann</div>" (sty "HeaderName");
            Paragraph "Skills" (sty "SectionHeader");
            add_section_divider (fresh "default");
            Paragraph "<b>Languages:</b> Python" (sty "SkillItem");
            Spacer 1 3 ].
Proof. split; reflexivity. Qed.




(** C5.  Whatever the theme name, [__init__] succeeds and the stylesheet of
    the generator holds a style under each of the names HeaderName, Contact,
    Error, HeaderTitle, SectionHeader, ListItem, Content, SkillItem,
    ExperienceTitle, JobTitle, ExperienceDetails and Normal, so a lookup of
    any of them succeeds. *)
Theorem C5_catalog_has_every_style :
  forall theme : string,
  exists self : ResumePDFGenerator,
    __init__ theme = Ok self
    /\ forall name : string,
         In name required_styles ->
         exists st : ParagraphStyle,
           sheet_getitem (styles self) name = Ok st /\ style_name st = name.
Proof.
  intros theme. exists (fresh theme). split; [apply init_fresh|].
  intros name Hin. exists (sty name).
  unfold required_styles in Hin. simpl in Hin.
  repeat (destruct Hin as [<-|Hin]; [split; reflexivity|]).
  contradiction.
Qed.

(** C6 (the code departs from the claim).  Two education entries that differ
    only in using [institution]/[date] or [school]/[dates] get different
    header lines when they also have a [location]: the entry with the primary
    keys shows the location, the entry with the aliases does not. *)
Theorem C6_alias_entry_drops_location :
  education_header (VDict [("institution", VStr "MIT"); ("location", VStr "Boston");
                           ("date", VStr "2020")])
  = Ok "<table width='100%'><tr><td><b>MIT, Boston</b></td><td align='right'>2020</td></tr></table>"
  /\ education_header (VDict [("school", VStr "MIT"); ("location", VStr "Boston");
                              ("dates", VStr "2020")])
     = Ok "<table width='100%'><tr><td><b>MIT</b></td><td align='right'>2020</td></tr></table>".
Proof. split; reflexivity. Qed.

(** C7 (amended).  After [process_resume] the caller's dictionary has the
    same keys in the same order and every key other than [education] maps to
    the value it had; the value of [education], when it is present and not
    empty, has been replaced in place by its list form (a list stays as it
    is). *)
Theorem C7_only_education_is_rewritten :
  forall (json_loads : string -> option value) (theme : string)
         (self : ResumePDFGenerator) (d : list (string * value)),
    __init__ theme = Ok self ->
    record_after json_loads self (VDict d) = VDict (canonical_record d)
    /\ map fst (canonical_record d) = map fst d
    /\ (forall k : string,
           k <> "education" -> dict_get k (canonical_record d) = dict_get k d)
    /\ (forall x : value,
           dict_get "education" d = Some x ->
           dict_get "education" (canonical_record d)
           = Some (if truthy x then canonical_education x else x))
    /\ (forall l : list value, canonical_education (VList l) = VList l).
Proof.
  intros json_loads theme self d Hinit. apply init_inv in Hinit. subst self.
  split; [|split; [|split; [|split]]].
  - unfold record_after. cbn [isinstance_dict]. unfold fresh.
    rewrite (process_resume_dict json_loads theme [] [] (VDict d) d) by reflexivity.
    reflexivity.
  - unfold canonical_record. destruct (dict_get "education" d) as [x|] eqn:E; auto.
    destruct (truthy x); auto. apply (dict_set_keys _ _ x); exact E.
  - intros k Hk. unfold canonical_record.
    destruct (dict_get "education" d) as [x|]; auto.
    destruct (truthy x); auto. apply dict_get_set_other; exact Hk.
  - intros x E. unfold canonical_record. rewrite E.
    destruct (truthy x); [apply dict_get_set_same|exact E].
  - reflexivity.
Qed.

Lemma C7_witness :
  __init__ "default" = Ok (fresh "default")
  /\ record_after JsonLite.json_loads (fresh "default")
       (VDict [("name", VStr "Ann"); ("education", VList [VDict [("school", VStr "MIT")]])])
     = VDict [("name", VStr "Ann"); ("education", VList [VDict [("school", VStr "MIT")]])].
Proof.
  split; [reflexivity|].
  exact (proj1 (C7_only_education_is_rewritten JsonLite.json_loads "default"
                  (fresh "default")
                  [("name", VStr "Ann"); ("education", VList [VDict [("school", VStr "MIT")]])]
                  eq_refl)).
Defined.

(** The claim C7 as stated fails for a record whose education value is a
    string: after the call the key maps to a list with one placeholder
    record. *)
Lemma C7_counterexample :
  __init__ "default" = Ok (fresh "default")
  /\ record_after JsonLite.json_loads (fresh "default")
       (VDict [("name", VStr "Ann"); ("education", VStr "BS Computer Science")])
     = VDict [("name", VStr "Ann");
              ("education",
               VList [VDict [("institution", VStr "From Resume Text");
                             ("degree", VStr "Education Information");
                             ("details", VList [VStr "BS Computer Science"])]])]
  /\ record_after JsonLite.json_loads (fresh "default")
       (VDict [("name", VStr "Ann"); ("education", VStr "BS Computer Science")])
     <> VDict [("name", VStr "Ann"); ("education", VStr "BS Computer Science")].
Proof.
  split; [reflexivity|]. split; [reflexivity|].
  intros H. vm_compute in H. discriminate H.
Qed.



(** C10.  For an experience record without a [company] key, the left cell of
    the header line is empty and the line consists of that cell and, when a
    [date] is present, the date cell: the value of [location] does not occur
    in it, and replacing that value leaves the line unchanged. *)
Theorem C10_location_needs_company :
  forall (d : list (string * value)) (loc : value),
    dict_has "company" d = false ->
    dict_get "location" d = Some loc ->
    experience_header (VDict d)
    = Ok ("<table width='100%'><tr><td></td>"
          ++ match dict_get "date" d with
             | Some date => "<td align='right'>" ++ py_str date ++ "</td>"
             | None => ""
             end ++ "</tr></table>")
    /\ forall loc' : value,
         experience_header (VDict (dict_set "location" loc' d))
         = experience_header (VDict d).
Proof.
  intros d loc Hc _. split; [apply experience_header_no_company; exact Hc|].
  intros loc'. rewrite !experience_header_no_company; auto.
  - rewrite dict_get_set_other by discriminate. reflexivity.
  - unfold dict_has in *. rewrite dict_get_set_other by discriminate. exact Hc.
Qed.

Lemma C10_witness :
  dict_has "company" [("title", VStr "Engineer"); ("location", VStr "Berlin");
                      ("date", VStr "2019 - 2021")] = false
  /\ experience_header (VDict [("title", VStr "Engineer"); ("location", VStr "Berlin");
                               ("date", VStr "2019 - 2021")])
     = Ok "<table width='100%'><tr><td></td><td align='right'>2019 - 2021</td></tr></table>".
Proof.
  split; [reflexivity|].
  exact (proj1 (C10_location_needs_company
                  [("title", VStr "Engineer"); ("location", VStr "Berlin");
                   ("date", VStr "2019 - 2021")]
                  (VStr "Berlin") eq_refl eq_refl)).
Defined.

(** * Further properties of the code

    ** Lists of blocks and the section handlers *)

Module HandlerFacts.
Import PyStr Py ReportLab Sections Generator Spec Layout.
Import HighlightFacts GeneratorFacts DefaultFacts ResumeFacts SectionFacts.

Ltac each_char c := destruct c as [[] [] [] [] [] [] [] []].





Lemma for_each_raises_same {A B} (f : A -> res (list B)) items e :
  (forall x, In x items -> (exists ys, f x = Ok ys) \/ f x = Raise e) ->
  (exists x, In x items /\ f x = Raise e) ->
  for_each f items = Raise e.
Proof.
  induction items as [|y items IH]; intros Hall [x [Hin Hx]]; [contradiction|].
  simpl. destruct (Hall y (or_introl eq_refl)) as [[ys Hy]|Hy]; rewrite Hy; simpl; auto.
  destruct Hin as [->|Hin]; [congruence|].
  rewrite IH; auto.
  - intros z Hz. apply Hall. right; exact Hz.
  - exists x. split; assumption.
Qed.


Lemma process_section_raise theme name content e :
  process_section_try (fresh theme) name content = Raise e ->
  process_section (fresh theme) name content = Ok [error_block name e].
Proof. intros H. unfold process_section. rewrite H. reflexivity. Qed.

Lemma process_section_ok theme name content els :
  process_section_try (fresh theme) name content = Ok els ->
  process_section (fresh theme) name content = Ok els.
Proof. intros H. unfold process_section. rewrite H. reflexivity. Qed.

(** *** skills *)



(** *** projects and experience *)


Lemma experience_entry_text s :
  experience_entry catalog (VStr s)
  = if mentions_field s then Raise str_index_error else Ok empty_experience.
Proof.
  unfold experience_entry, experience_header, mentions_field, experience_fields.
  cbn [existsb]. resolve_styles. cbn [py_in bind].
  destruct (contains "company" s); cbn [bind py_getitem orb].
  - destruct (contains "location" s); reflexivity.
  - destruct (contains "date" s); cbn [bind py_getitem orb]; [reflexivity|].
    destruct (contains "title" s); cbn [bind py_getitem orb]; [reflexivity|].
    destruct (contains "responsibilities" s); cbn [bind py_getitem orb]; [reflexivity|].
    destruct (contains "achievements" s); cbn [bind py_getitem orb]; reflexivity.
Qed.



Lemma try_experience theme v :
  isinstance_str v = false ->
  process_section_try (fresh theme) "experience" v = ExperienceSection_process catalog v.
Proof. destruct v; try discriminate; reflexivity. Qed.











(** *** the highlighting *)

Lemma rendered_length segs :
  String.length (flatten (map render_segment segs))
  = String.length (plain_text segs) + 7 * List.length (filter is_bold segs).
Proof.
  unfold plain_text. induction segs as [|g segs IH]; [reflexivity|].
  cbn [map flatten filter]. rewrite !length_append, IH.
  destruct g as [c|w]; cbn [render_segment segment_text is_bold List.length].
  - simpl. lia.
  - change ("<b>" ++ w ++ "</b>") with (String "<" (String "b" (String ">" (w ++ "</b>")))).
    cbn [String.length]. rewrite length_append. simpl. lia.
Qed.

Lemma all_plain_no_match s segs :
  highlights s segs -> filter is_bold segs = [] ->
  forall a w b, s = a ++ w ++ b -> ~ matches_pattern w.
Proof.
  induction 1 as [|w0 rest segs Hm Hl Hh IH|c rest segs Hn Hh IH]; intros Hf a w b Hs Hw.
  - destruct a; [|discriminate]. destruct w; [|discriminate].
    exact (matches_nonempty _ Hw eq_refl).
  - discriminate.
  - cbn [filter is_bold] in Hf. destruct a as [|c' a].
    + apply (Hn w Hw). exists b. exact Hs.
    + simpl in Hs. injection Hs as _ Hs. exact (IH Hf a w b Hs Hw).
Qed.

Lemma no_match_unchanged s :
  (forall a w b, s = a ++ w ++ b -> ~ matches_pattern w) -> re_sub_bold s = s.
Proof.
  unfold re_sub_bold. induction s as [|c r IH]; intros H; [reflexivity|].
  cbn [scan]. destruct (match_at (String c r)) as [w|] eqn:E.
  - exfalso. destruct (match_at_sound _ _ E) as [Hm [tail Ht]].
    exact (H "" w tail Ht Hm).
  - cbn [map flatten render_segment]. rewrite IH; [reflexivity|].
    intros a w b Hs. apply (H (String c a) w b). simpl. rewrite Hs. reflexivity.
Qed.

(** *** education *)


(** *** the header and the order of the sections *)

Lemma contact_part_shown d field glyph :
  contact_part (VDict d) field glyph
  = Ok match shown d field with Some v => [glyph ++ py_str v] | None => [] end.
Proof.
  unfold contact_part, shown. cbn [py_in py_getitem bind]. unfold dict_has.
  destruct (dict_get field d) as [v|]; cbn [bind]; [|reflexivity].
  destruct (truthy v); reflexivity.
Qed.

Lemma format_contact_info_dict d : format_contact_info (VDict d) = contact_text d.
Proof.
  unfold format_contact_info, contact_text, contact_group. cbn [isinstance_dict negb].
  rewrite !contact_part_shown. cbn [bind flat_map fst snd].
  destruct (shown d "email"), (shown d "phone"), (shown d "github"), (shown d "linkedin");
    cbn [app]; rewrite ?append_empty_r; reflexivity.
Qed.






(** *** [add_section] *)



(** *** section titles *)










End HandlerFacts.

(** ** The storage helpers and the endpoint *)

Module ServiceFacts.
Import PyStr Py ReportLab Sections Generator Spec Service Pipeline Layout ServiceSpec.
Import HighlightFacts GeneratorFacts DefaultFacts ResumeFacts SectionFacts HandlerFacts.

Lemma id_char_facts c :
  let c' := lower (if Ascii.eqb (if is_id_char c then c else "_"%char) " "
                   then "_"%char else (if is_id_char c then c else "_"%char)) in
  is_safe_char c' = true
  /\ c' = lower (if is_id_char c then c else "_"%char)
  /\ lower (if Ascii.eqb (if is_id_char c' then c' else "_"%char) " "
            then "_"%char else (if is_id_char c' then c' else "_"%char)) = c'.
Proof. each_char c; repeat split; reflexivity. Qed.

Lemma id_from_cons c s :
  id_from (String c s)
  = String (lower (if Ascii.eqb (if is_id_char c then c else "_"%char) " "
                   then "_"%char else (if is_id_char c then c else "_"%char)))
      (id_from s).
Proof. reflexivity. Qed.

(** *** the loop of [store_json] *)

Section Store.
Variable passes : Z -> pass.
Variable doc_id : string.
Variable max_retries : Z.

Lemma seq_snoc a k : seq a (S k) = (seq a k ++ [a + k])%list.
Proof. rewrite seq_S. reflexivity. Qed.

Lemma store_loop_spec fuel : forall a k slept,
  a + k <= Z.to_nat max_retries ->
  Z.to_nat max_retries - (a + k) < fuel ->
  exists r n,
    store_loop fuel passes doc_id max_retries (Z.of_nat (a + k))
      (slept ++ map (fun i => Z.pow 2 (Z.of_nat i)) (seq (S a) k))
    = Some (r, (slept ++ map (fun i => Z.pow 2 (Z.of_nat i)) (seq (S a) n))%list)
    /\ k <= n
    /\ (forall i, a + k <= i < a + n -> failed_pass passes doc_id i)
    /\ ends_at passes doc_id max_retries r (a + n).
Proof.
  induction fuel as [|fuel IH]; intros a k slept Hle Hf; [lia|].
  cbn [store_loop]. destruct (Z.ltb_spec (Z.of_nat (a + k)) max_retries) as [Hlt|Hge].
  - destruct (store_once doc_id (passes (Z.of_nat (a + k)))) as [id|msg|msg] eqn:E.
    + exists (Returned id), k. repeat split; auto; intros; lia.
    + destruct (IH a (S k) slept) as (r & n & Hr & Hn & Hfail & Hend); [lia|lia|].
      exists r, n. split; [|split; [lia|split; [|exact Hend]]].
      * rewrite <- Hr. f_equal; [lia|].
        rewrite seq_snoc, map_app, app_assoc. cbn [map]. do 3 f_equal. lia.
      * intros i Hi. destruct (Nat.eq_dec i (a + k)) as [->|Hne].
        -- exists msg. exact E.
        -- apply Hfail. lia.
    + exists (Raised msg), k. repeat split; auto; intros; lia.
  - exists gave_up, k. repeat split; auto; try (intros; lia).
Qed.

End Store.

(** *** blob names and URLs *)

Lemma ends_with_append a suffix : ends_with suffix (a ++ suffix) = true.
Proof.
  unfold ends_with. rewrite length_append.
  replace (String.length a + String.length suffix - String.length suffix)
    with (String.length a) by lia.
  rewrite drop_append. apply String.eqb_refl.
Qed.

Lemma starts_with_append a b : starts_with a (a ++ b) = true.
Proof. induction a; simpl; auto. rewrite Ascii.eqb_refl. exact IHa. Qed.

Lemma starts_with_split a s : starts_with a s = true -> s = a ++ drop (String.length a) s.
Proof.
  revert s. induction a as [|c a IH]; intros s H; [reflexivity|].
  destruct s as [|d s]; [discriminate|]. simpl in H.
  apply andb_true_iff in H as [Hc Ha]. apply Ascii.eqb_eq in Hc. subst d.
  simpl. f_equal. apply IH. exact Ha.
Qed.

Lemma contains_question c r :
  contains "?" (String c r) = Ascii.eqb c "?" || contains "?" r.
Proof.
  cbn [contains starts_with]. rewrite andb_true_r, (Ascii.eqb_sym "?" c). reflexivity.
Qed.

Lemma before_char_none u : contains "?" u = false -> before_char "?" u = u.
Proof.
  induction u as [|c r IH]; [reflexivity|].
  rewrite contains_question. intros H. apply orb_false_iff in H as [Hc Hr].
  cbn [before_char]. rewrite Hc, IH; auto.
Qed.

Lemma before_char_clean u : contains "?" (before_char "?" u) = false.
Proof.
  induction u as [|c r IH]; [reflexivity|].
  cbn [before_char]. destruct (Ascii.eqb c "?") eqn:E; [reflexivity|].
  rewrite contains_question, E, IH. reflexivity.
Qed.

Lemma before_char_append b x :
  contains "?" b = false -> before_char "?" (b ++ String "?" x) = b.
Proof.
  induction b as [|c r IH]; [reflexivity|].
  rewrite contains_question. intros H. apply orb_false_iff in H as [Hc Hr].
  cbn [append before_char]. rewrite Hc, IH; auto.
Qed.

Lemma direct_url_with_query env url :
  match configured_token env with
  | Some t => if starts_with "?" t then url ++ t else url ++ "?" ++ t
  | None => url
  end
  = with_query url (query_token env).
Proof.
  unfold query_token. destruct (configured_token env) as [t|]; [|reflexivity].
  cbn [option_map with_query]. destruct (starts_with "?" t) eqn:Et; [|reflexivity].
  rewrite (starts_with_split "?" t Et) at 1. reflexivity.
Qed.

Lemma updated_url_closed t u :
  updated_url (Some t) u = Ok (if rewritten t u then with_token t u else u).
Proof.
  unfold updated_url, rewritten, with_token. cbn [token_in token_str].
  destruct (contains "?" u) eqn:Eq; cbn [negb bind andb orb].
  - rewrite !andb_false_r.
    destruct (contains pdf1_host u), (contains t u); reflexivity.
  - rewrite (before_char_none u Eq), !andb_true_r, orb_true_r.
    destruct (contains "pdf1.blob.core.windows.net/new/resume_" u),
      (contains pdf1_host u),
      (contains "https://pdf1.blob.core.windows.net/new/resume_20250310_164411_b75f956f.pdf" u);
      reflexivity.
Qed.

Lemma with_token_fixed t u :
  (if rewritten t (with_token t u) then with_token t (with_token t u) else with_token t u)
  = with_token t u.
Proof.
  assert (H : with_token t (with_token t u) = with_token t u).
  { unfold with_token at 1 3. unfold with_token at 1.
    change (before_char "?" u ++ "?" ++ t) with (before_char "?" u ++ String "?" t).
    rewrite before_char_append by apply before_char_clean. reflexivity. }
  rewrite H. destruct (rewritten t (with_token t u)); reflexivity.
Qed.

Lemma cut_fence_body body :
  cut_fence ("```json" ++ body) = take (String.length body - 3) body.
Proof.
  unfold cut_fence. cbn [append String.length drop].
  replace (S (S (S (S (S (S (S (String.length body))))))) - 3 - 7)
    with (String.length body - 3) by lia.
  reflexivity.
Qed.

Lemma unparsed_has_type summary :
  exists d, unparsed_resume summary = VDict d /\ dict_get "type" d = Some (VStr "resume").
Proof. eexists. split; reflexivity. Qed.

(** *** the steps of [process_all] *)

Lemma store_step_unbound w v st :
  (exists m, get_or_create w resume_container = Fails m) \/ unusable_name w v = true ->
  fst (fst (store_step w v st)) = None.
Proof.
  unfold store_step, unusable_name. intros [[m Hm]|Hu].
  - rewrite Hm. reflexivity.
  - destruct (get_or_create w resume_container); [|reflexivity].
    destruct (get_name v (splitext w)) as [n|]; [|reflexivity].
    destruct n; try reflexivity. discriminate.
Qed.

Lemma tailor_step_unbound w v j job_id st :
  exists msg, tailor_step w v None j job_id st = Fails msg.
Proof.
  unfold tailor_step. cbn [tailored_id].
  destruct (generate_tailored_resume w v j);
    [destruct (get_or_create w tailored_resume_container)|];
    destruct (copy v); eauto.
Qed.



Lemma job_step_not_stored w title description st j msg :
  analyze_job_details w title description = Fine j ->
  get_or_create w job_container = Fails msg
  \/ (get_or_create w job_container = Fine tt
      /\ store w job_container (id_from title) j = Fails msg) ->
  job_step w title description st
  = (job_placeholder, id_from title,
     set_job_analysis "failed" (add_error ("Failed to analyze job: " ++ msg) st)).
Proof.
  intros Ha [Hg|[Hg Hs]]; unfold job_step; cbv zeta; rewrite Ha, Hg, ?Hs; reflexivity.
Qed.

Lemma tailor_step_not_stored w d n j jid st t msg :
  generate_tailored_resume w (VDict d) j = Fine t ->
  get_or_create w tailored_resume_container = Fails msg
  \/ (get_or_create w tailored_resume_container = Fine tt
      /\ store w tailored_resume_container (n ++ "_for_" ++ jid) t = Fails msg) ->
  tailor_step w (VDict d) (Some n) j jid st
  = Fine (VDict d, n ++ "_for_" ++ jid,
          set_tailoring "failed" (add_error ("Failed to tailor resume: " ++ msg) st)).
Proof.
  intros Ht [Hg|[Hg Hs]]; unfold tailor_step; cbv zeta;
    rewrite Ht, Hg; cbn [tailored_id copy]; rewrite ?Hs; reflexivity.
Qed.

End ServiceFacts.

(** ** The further properties *)

Import Service Pipeline Layout ServiceSpec HandlerFacts ServiceFacts.









(** X5.  An experience payload that is a single record instead of a list of
    records is iterated key by key, each key taken for an entry.  If one of
    the keys contains one of the names [company], [date], [title],
    [responsibilities] or [achievements], the section is one [Error]
    paragraph about string indices; otherwise every key gives an empty header
    line and a spacer, and no value of the record is shown. *)
Theorem X5_experience_given_as_one_record :
  forall (theme : string) (self : ResumePDFGenerator) (d : list (string * value)),
    __init__ theme = Ok self ->
    process_section self "experience" (VDict d)
    = if existsb mentions_field (map fst d)
      then Ok [error_block "experience" str_index_error]
      else Ok (flat_map (fun _ => empty_experience) d).
Proof.
  intros theme self d Hinit. apply init_inv in Hinit. subst self.
  destruct (existsb mentions_field (map fst d)) eqn:Hm.
  - apply process_section_raise. rewrite try_experience by reflexivity.
    unfold ExperienceSection_process. cbn [py_iter bind].
    apply for_each_raises_same.
    + intros x Hx. apply in_map_iff in Hx as [[k v] [<- _]]. cbn [fst].
      rewrite experience_entry_text. destruct (mentions_field k); eauto.
    + apply existsb_exists in Hm as [k [Hk Hmk]].
      apply in_map_iff in Hk as [[k' v] [<- Hin]]. cbn [fst] in *.
      exists (VStr k'). split.
      * apply in_map_iff. exists (k', v). split; [reflexivity|exact Hin].
      * rewrite experience_entry_text, Hmk. reflexivity.
  - apply process_section_ok. rewrite try_experience by reflexivity.
    unfold ExperienceSection_process. cbn [py_iter bind].
    induction d as [|[k v] d IH]; [reflexivity|].
    cbn [map fst existsb] in Hm. apply orb_false_iff in Hm as [Hk Hd].
    cbn [map fst for_each flat_map]. rewrite experience_entry_text, Hk. cbn [bind].
    rewrite (IH Hd). reflexivity.
Qed.

Lemma X5_witness :
  __init__ "default" = Ok (fresh "default")
  /\ process_section (fresh "default") "experience"
       (VDict [("company", VStr "Acme"); ("title", VStr "Engineer")])
     = Ok [Paragraph "Error processing experience: string indices must be integers, not 'str'"
             (sty "Error")].
Proof.
  split; [reflexivity|].
  exact (X5_experience_given_as_one_record "default" (fresh "default")
           [("company", VStr "Acme"); ("title", VStr "Engineer")] eq_refl).
Defined.









(** X10.  The contact text of a record depends only on the fields [email],
    [phone], [github] and [linkedin] that are present and not empty: two
    records that agree on them have the same text, which is the centred line
    of e-mail and phone followed by the centred line of the two links, and
    which is empty when none of the four is shown ([website] and [location]
    are never written). *)
Theorem X10_contact_line :
  forall d d' : list (string * value),
    (forall f, In f printed_fields -> shown d f = shown d' f) ->
    format_contact_info (VDict d) = format_contact_info (VDict d')
    /\ format_contact_info (VDict d) = contact_text d
    /\ ((forall f, In f printed_fields -> shown d f = None) ->
        format_contact_info (VDict d) = "").
Proof.
  intros d d' H. rewrite !format_contact_info_dict. split; [|split; [reflexivity|]].
  - unfold contact_text, contact_group. cbn [flat_map fst snd].
    rewrite (H "email"), (H "phone"), (H "github"), (H "linkedin") by (simpl; tauto).
    reflexivity.
  - intros Hn. unfold contact_text, contact_group. cbn [flat_map fst snd].
    rewrite (Hn "email"), (Hn "phone"), (Hn "github"), (Hn "linkedin") by (simpl; tauto).
    reflexivity.
Qed.

Lemma X10_witness :
  format_contact_info
    (VDict [("email", VStr "ann@example.org"); ("website", VStr "https://ann.example.org")])
  = format_contact_info
      (VDict [("location", VStr "Bern"); ("phone", VStr ""); ("email", VStr "ann@example.org")]).
Proof.
  refine (proj1 (X10_contact_line
                   [("email", VStr "ann@example.org");
                    ("website", VStr "https://ann.example.org")]
                   [("location", VStr "Bern"); ("phone", VStr "");
                    ("email", VStr "ann@example.org")] _)).
  intros f [<-|[<-|[<-|[<-|[]]]]]; reflexivity.
Defined.









(** X16.  Highlighting a responsibility only inserts tags: the result is
    longer than the text by seven characters for every bold run, and it is
    the text itself exactly when no part of the text matches the pattern. *)
Theorem X16_highlighting_adds_only_the_tags :
  forall s : string,
    String.length (re_sub_bold s) = String.length s + 7 * bold_runs s
    /\ (re_sub_bold s = s
        <-> forall a w b : string, s = a ++ w ++ b -> ~ matches_pattern w).
Proof.
  intros s.
  assert (Hlen : String.length (re_sub_bold s) = String.length s + 7 * bold_runs s).
  { unfold re_sub_bold, bold_runs. rewrite rendered_length.
    rewrite (highlights_text s _ (scan_highlights s)). reflexivity. }
  split; [exact Hlen|]. split.
  - intros H. apply (all_plain_no_match s (scan 0 s) (scan_highlights s)).
    rewrite H in Hlen. unfold bold_runs in Hlen.
    destruct (filter is_bold (scan 0 s)); [reflexivity|simpl in Hlen; lia].
  - apply no_match_unchanged.
Qed.


(** X18.  The identifier [process_all] makes of a name or of a job title
    has the length of the text, holds only lower-case letters, digits, [_]
    and [-], and is left unchanged when it is made again; the replacement of
    spaces in the expression has no effect, since the substitution before it
    leaves no space. *)
Theorem X18_identifiers_are_safe :
  forall s : string,
    String.length (id_from s) = String.length s
    /\ all_str is_safe_char (id_from s) = true
    /\ id_from (id_from s) = id_from s
    /\ id_from s = lower_str (sub_id_chars s).
Proof.
  induction s as [|c s (Hlen & Hsafe & Hidem & Hred)]; [repeat split; reflexivity|].
  rewrite !id_from_cons. destruct (id_char_facts c) as (H1 & H2 & H3). cbv zeta in *.
  repeat split.
  - cbn [String.length]. rewrite Hlen. reflexivity.
  - cbn [all_str]. rewrite H1, Hsafe. reflexivity.
  - rewrite H3, Hidem. reflexivity.
  - rewrite H2, Hred. reflexivity.
Qed.

(** X19.  [store_json] always ends: after [k] passes that ended in a Cosmos
    error it has slept 2, 4, ..., 2^k seconds, and then either a pass stored
    the document and its id is returned (the given id, or the given id with
    the time and a UUID appended when a document of that id exists), or
    another exception leaves the function, or [k] is the number of retries
    and the function raises the HTTP error 500, having slept after the last
    failed pass too. *)
Theorem X19_store_json_backs_off :
  forall (passes : Z -> pass) (doc_id : string) (max_retries : Z),
    exists (r : stored) (k : nat),
      store_json passes doc_id max_retries = Some (r, backoff k)
      /\ (forall i, i < k ->
            exists msg,
              store_once doc_id (passes (Z.of_nat i)) = CosmosHttpResponseError msg)
      /\ match r with
         | Returned id =>
             (Z.of_nat k < max_retries)%Z
             /\ store_once doc_id (passes (Z.of_nat k)) = Returns id
             /\ (id = doc_id \/ id = new_id doc_id (passes (Z.of_nat k)))
         | HTTPException status_code detail =>
             status_code = 500%Z
             /\ detail = "Failed to store document after multiple attempts."
             /\ k = Z.to_nat max_retries
         | Raised msg =>
             (Z.of_nat k < max_retries)%Z
             /\ store_once doc_id (passes (Z.of_nat k)) = OtherException msg
         end.
Proof.
  intros passes doc_id max_retries.
  destruct (store_loop_spec passes doc_id max_retries (S (Z.to_nat max_retries)) 0 0 [])
    as (r & n & Hr & _ & Hfail & Hend); [lia|lia|].
  exists r, n. split; [exact Hr|]. split.
  - intros i Hi. apply Hfail. lia.
  - cbn [Nat.add] in Hend. destruct r as [id|sc d|msg]; cbn [ends_at] in Hend.
    + destruct Hend as [Hlt Hs]. repeat split; auto.
      unfold store_once in Hs. destruct (existing_doc _) as [[|]| |]; try discriminate;
        destruct (create_item _); try discriminate; injection Hs as <-; auto.
    + destruct Hend as [Hg Hk]. injection Hg as -> ->. auto.
    + exact Hend.
Qed.

(** X20.  The name [save_file_to_blob] stores a blob under always starts
    with "resume_" and ends with ".pdf": it is the cleaned name it was given
    if that name has this form, and a fresh name made of the time and a UUID
    otherwise, in particular for every name that does not end in ".pdf". *)
Theorem X20_blob_is_always_named_resume_pdf :
  forall (env : blob_env) (blob_name : string),
    let name := normalized_blob_name env blob_name in
    starts_with "resume_" name = true
    /\ ends_with ".pdf" name = true
    /\ (name = clean_blob_name blob_name \/ name = fresh_blob_name env)
    /\ (ends_with ".pdf" (clean_blob_name blob_name) = false -> name = fresh_blob_name env).
Proof.
  intros env blob_name. cbv zeta. unfold normalized_blob_name. cbv zeta.
  destruct (starts_with "resume_" (clean_blob_name blob_name)) eqn:Es;
    destruct (ends_with ".pdf" (clean_blob_name blob_name)) eqn:Ee; cbn [negb orb];
    repeat split; auto; try discriminate;
    try (unfold fresh_blob_name;
         change ("resume_" ++ timestamp env ++ "_" ++ take 8 (unique_id env) ++ ".pdf")
           with ("resume_" ++ (timestamp env ++ "_" ++ take 8 (unique_id env) ++ ".pdf"));
         apply starts_with_append);
    try (rewrite <- !append_assoc; apply ends_with_append).
Qed.

(** X21.  [save_file_to_blob] returns a URL in every case.  When the upload
    raised, or when the [HEAD] request raised or was answered with a status
    from 200 to 299, the URL is the standard address of the normalized name
    followed by the configured token without its leading [?]: a failed upload
    returns the very URL a verified upload returns.  Otherwise the URL is
    that one or the URL of the blob client with the same token. *)
Theorem X21_failed_upload_returns_the_same_url :
  forall (env : blob_env) (blob_name : string),
    let url := with_query (blob_base ++ normalized_blob_name env blob_name)
                 (query_token env) in
    (uploaded env = false \/ rejected env = false -> save_file_to_blob env blob_name = url)
    /\ (save_file_to_blob env blob_name = url
        \/ save_file_to_blob env blob_name
           = with_query (blob_client_url env) (query_token env)).
Proof.
  intros env blob_name. cbv zeta.
  pose proof (direct_url_with_query env (blob_base ++ normalized_blob_name env blob_name))
    as Hdirect.
  unfold save_file_to_blob, rejected. cbv zeta. fold (query_token env).
  destruct (uploaded env).
  - destruct (head_status env) as [status_code|]; [|split; auto].
    destruct (Z.leb 200 status_code && Z.ltb status_code 300); [split; auto|].
    destruct (negb (String.eqb (blob_client_url env) _)); split; auto.
    intros [H|H]; discriminate.
  - rewrite Hdirect. split; auto.
Qed.

(** X22.  With a configured token, the blob URL [get_resumes] and
    [get_resume] return is the stored URL with its query replaced by the
    token if the URL is on the [pdf1] host, has no query or does not hold the
    token, and the stored URL otherwise; correcting a corrected URL changes
    nothing, so the database is rewritten at most once; a URL on the [pdf1]
    host always gets the token.  Without a configured token a URL that has a
    query makes the computation raise. *)
Theorem X22_blob_url_carries_the_token :
  forall t original_url : string,
    updated_url (Some t) original_url
    = Ok (if rewritten t original_url then with_token t original_url else original_url)
    /\ (forall r, updated_url (Some t) original_url = Ok r -> updated_url (Some t) r = Ok r)
    /\ (contains pdf1_host original_url = true ->
        updated_url (Some t) original_url = Ok (with_token t original_url))
    /\ (contains "?" original_url = true ->
        exists e, updated_url None original_url = Raise e).
Proof.
  intros t u. split; [apply updated_url_closed|]. split; [|split].
  - intros r. rewrite updated_url_closed. intros H. injection H as <-.
    rewrite updated_url_closed. f_equal.
    destruct (rewritten t u) eqn:E; [apply with_token_fixed|]. rewrite E. reflexivity.
  - intros H. rewrite updated_url_closed. unfold rewritten. rewrite H. reflexivity.
  - intros H. unfold updated_url. rewrite H. cbn [negb token_in bind]. eauto.
Qed.

(** X23.  [process_resume_with_openai] returns a record whose [type] is
    "resume" whatever the reply: the parsed record with its [type] set (a
    [type] of its own is overwritten, the other fields are kept) when the
    reply parses to a record; the fallback record "Failed to process resume
    content." when it parses to a value that is no record or when the request
    raised; the fallback record "Failed to parse resume content properly."
    when it does not parse. *)
Theorem X23_parsed_resume_is_a_typed_record :
  forall (json_loads : string -> option value) (content : option string),
    (exists d : list (string * value),
        process_resume_with_openai json_loads content = VDict d
        /\ dict_get "type" d = Some (VStr "resume"))
    /\ (forall (text : string) (p : list (string * value)),
           content = Some text ->
           json_loads (reply_json text) = Some (VDict p) ->
           process_resume_with_openai json_loads content
           = VDict (dict_set "type" (VStr "resume") p))
    /\ (forall (text : string) (v : value),
           content = Some text ->
           json_loads (reply_json text) = Some v ->
           isinstance_dict v = false ->
           process_resume_with_openai json_loads content
           = unparsed_resume "Failed to process resume content.")
    /\ (forall text : string,
           content = Some text ->
           json_loads (reply_json text) = None ->
           process_resume_with_openai json_loads content
           = unparsed_resume "Failed to parse resume content properly.").
Proof.
  intros json_loads content. split; [|split; [|split]].
  - unfold process_resume_with_openai. destruct content as [text|]; [|apply unparsed_has_type].
    cbv zeta. destruct (json_loads _) as [v|]; [|apply unparsed_has_type].
    destruct v; cbn [py_setitem]; try apply unparsed_has_type.
    eexists. split; [reflexivity|]. apply dict_get_set_same.
  - intros text p -> H. unfold process_resume_with_openai, reply_json in *. cbv zeta.
    rewrite H. reflexivity.
  - intros text v -> H Hv. unfold process_resume_with_openai, reply_json in *. cbv zeta.
    rewrite H. destruct v; try discriminate; reflexivity.
  - intros text -> H. unfold process_resume_with_openai, reply_json in *. cbv zeta.
    rewrite H. reflexivity.
Qed.

(** X24.  If the resume database or its container cannot be reached, or the
    parsed resume is no record or has a name that is no string, the local
    name [resume_name] of [process_all] is never assigned; step 5 and its
    [except] clause both read it, so the request ends in the outer [except]
    clause with the status code 500 and the status "failed", whatever the
    other steps would have given. *)
Theorem X24_unassigned_resume_name_fails_the_request :
  forall (json_loads : string -> option value) (w : world) (title description : string),
    supported w = true ->
    (exists m, get_or_create w resume_container = Fails m)
    \/ unusable_name w (parsed_resume w) = true ->
    exists msg : string,
      process_all json_loads w title description = failed_response w msg.
Proof.
  intros json_loads w title description Hs Hu.
  unfold process_all, process_all_try. rewrite Hs. cbn [negb].
  destruct (read w) as [u|m]; [|eauto].
  pose proof (store_step_unbound w (parsed_resume w)) as Hn.
  unfold parsed_resume in Hn, Hu.
  destruct (extract_step w pending) as [text st1]. cbn [fst snd] in Hn, Hu.
  destruct (parse_step w text st1) as [rj st2] eqn:Ep. cbn [fst] in Hn, Hu.
  specialize (Hn st2 Hu).
  destruct (store_step w rj st2) as [[rn rid] st3]. cbn [fst] in Hn. subst rn.
  destruct (job_step w title description st3) as [[jj jid] st4].
  destruct (tailor_step_unbound w rj jj jid st4) as [msg Hm]. rewrite Hm. eauto.
Qed.

Lemma X24_witness :
  supported offline_world = true
  /\ get_or_create offline_world resume_container = Fails "no route"
  /\ exists msg : string,
       process_all JsonLite.json_loads offline_world "Data Engineer" "Builds pipelines"
       = failed_response offline_world msg.
Proof.
  split; [reflexivity|split; [reflexivity|]].
  exact (X24_unassigned_resume_name_fails_the_request JsonLite.json_loads offline_world
           "Data Engineer" "Builds pipelines" eq_refl
           (or_introl (ex_intro _ "no route" eq_refl))).
Defined.

(** X25.  If the job was analysed but its database cannot be reached or the
    job cannot be stored, step 4 of [process_all] throws the analysis away:
    the job becomes the "Processing error" placeholder, the analysis is
    reported as failed, and the whole answer is the one of a request whose
    analysis itself raised the same exception. *)
Theorem X25_job_that_cannot_be_stored_is_replaced :
  forall (json_loads : string -> option value) (w : world) (title description : string)
         (job_json_data : value) (msg : string),
    analyze_job_details w title description = Fine job_json_data ->
    get_or_create w job_container = Fails msg
    \/ (get_or_create w job_container = Fine tt
        /\ store w job_container (id_from title) job_json_data = Fails msg) ->
    (forall st : process_status,
        job_step w title description st
        = (job_placeholder, id_from title,
           set_job_analysis "failed" (add_error ("Failed to analyze job: " ++ msg) st)))
    /\ process_all json_loads w title description
       = process_all json_loads (failing_analysis w msg) title description.
Proof.
  intros json_loads w title description j msg Ha Hg.
  pose proof (fun st => job_step_not_stored w title description st j msg Ha Hg) as Hj.
  split; [exact Hj|].
  unfold process_all, process_all_try.
  change (supported (failing_analysis w msg)) with (supported w).
  change (read (failing_analysis w msg)) with (read w).
  change (extract_step (failing_analysis w msg)) with (extract_step w).
  change (parse_step (failing_analysis w msg)) with (parse_step w).
  change (store_step (failing_analysis w msg)) with (store_step w).
  change (tailor_step (failing_analysis w msg)) with (tailor_step w).
  change (pdf_step json_loads (failing_analysis w msg)) with (pdf_step json_loads w).
  change (failed_response (failing_analysis w msg)) with (failed_response w).
  destruct (supported w); [|reflexivity]. cbn [negb].
  destruct (read w); [|reflexivity].
  destruct (extract_step w pending) as [text st1].
  destruct (parse_step w text st1) as [rj st2].
  destruct (store_step w rj st2) as [[rn rid] st3].
  rewrite Hj. reflexivity.
Qed.

Lemma X25_witness :
  process_all JsonLite.json_loads readonly_world "Data Engineer" "Builds pipelines"
  = process_all JsonLite.json_loads (failing_analysis readonly_world "read only")
      "Data Engineer" "Builds pipelines".
Proof.
  exact (proj2 (X25_job_that_cannot_be_stored_is_replaced JsonLite.json_loads
                  readonly_world "Data Engineer" "Builds pipelines"
                  (VDict [("Requirements", VList [VStr "Python"])]) "read only"
                  eq_refl (or_intror (conj eq_refl eq_refl)))).
Defined.

(** X26.  If the resume was tailored but the tailored resume cannot be
    stored, step 5 of [process_all] throws the tailored resume away: the PDF
    is made of a copy of the resume as it was parsed, the tailoring is
    reported as failed, and the whole answer is the one of a request whose
    tailoring itself raised the same exception. *)
Theorem X26_tailored_resume_that_cannot_be_stored_is_dropped :
  forall (json_loads : string -> option value) (w : world) (title description : string)
         (msg : string),
    (forall r j, exists t, generate_tailored_resume w r j = Fine t) ->
    get_or_create w tailored_resume_container = Fails msg
    \/ (get_or_create w tailored_resume_container = Fine tt
        /\ forall id v, store w tailored_resume_container id v = Fails msg) ->
    (forall (d : list (string * value)) (resume_name : string) (job_json_data : value)
            (job_id : string) (st : process_status),
        tailor_step w (VDict d) (Some resume_name) job_json_data job_id st
        = Fine (VDict d, resume_name ++ "_for_" ++ job_id,
                set_tailoring "failed"
                  (add_error ("Failed to tailor resume: " ++ msg) st)))
    /\ process_all json_loads w title description
       = process_all json_loads (failing_tailoring w msg) title description.
Proof.
  intros json_loads w title description msg Ht Hg.
  assert (Hstep : forall rj rn jj jid st,
             tailor_step w rj rn jj jid st
             = tailor_step (failing_tailoring w msg) rj rn jj jid st).
  { intros rj rn jj jid st. unfold tailor_step. cbv zeta.
    change (generate_tailored_resume (failing_tailoring w msg) rj jj) with (@Fails value msg).
    destruct (Ht rj jj) as [t Et]. rewrite Et.
    destruct Hg as [Hg|[Hg Hs]]; rewrite Hg.
    - reflexivity.
    - destruct rn as [n|]; cbn [tailored_id].
      + rewrite Hs. reflexivity.
      + destruct (copy rj); reflexivity. }
  split.
  - intros d n jj jid st. destruct (Ht (VDict d) jj) as [t Et].
    apply (tailor_step_not_stored w d n jj jid st t msg Et).
    destruct Hg as [Hg|[Hg Hs]]; [left; exact Hg|right; split; [exact Hg|apply Hs]].
  - unfold process_all, process_all_try.
    change (supported (failing_tailoring w msg)) with (supported w).
    change (read (failing_tailoring w msg)) with (read w).
    change (extract_step (failing_tailoring w msg)) with (extract_step w).
    change (parse_step (failing_tailoring w msg)) with (parse_step w).
    change (store_step (failing_tailoring w msg)) with (store_step w).
    change (job_step (failing_tailoring w msg)) with (job_step w).
    change (pdf_step json_loads (failing_tailoring w msg)) with (pdf_step json_loads w).
    change (failed_response (failing_tailoring w msg)) with (failed_response w).
    destruct (supported w); [|reflexivity]. cbn [negb].
    destruct (read w); [|reflexivity].
    destruct (extract_step w pending) as [text st1].
    destruct (parse_step w text st1) as [rj st2].
    destruct (store_step w rj st2) as [[rn rid] st3].
    destruct (job_step w title description st3) as [[jj jid] st4].
    rewrite Hstep. reflexivity.
Qed.

Lemma X26_witness :
  process_all JsonLite.json_loads readonly_world "Data Engineer" "Builds pipelines"
  = process_all JsonLite.json_loads (failing_tailoring readonly_world "read only")
      "Data Engineer" "Builds pipelines".
Proof.
  refine (proj2 (X26_tailored_resume_that_cannot_be_stored_is_dropped JsonLite.json_loads
                   readonly_world "Data Engineer" "Builds pipelines" "read only" _ _)).
  - intros r j. eexists. reflexivity.
  - right. split; [reflexivity|]. intros id v. reflexivity.
Defined.



(** X28.  [analyze_job_details] and [generate_tailored_resume] read a reply
    alike: they return a value for the same replies, namely those that, once
    stripped, start with the fence [```json] or with a brace and whose text
    parses, and it is the same value.  The fence is removed by cutting seven
    characters at the start and three at the end: a closed fence leaves its
    content, and a reply whose fence is not closed loses its last three
    characters. *)
Theorem X28_replies_are_read_alike :
  forall (json_loads : string -> option value) (content : option string),
    (forall v : value,
        analyze_job_details_reply json_loads content = Parsed v
        <-> generate_tailored_resume_reply json_loads content = Parsed v)
    /\ (forall (text : string) (v : value),
           content = Some text ->
           (analyze_job_details_reply json_loads content = Parsed v
            <-> exists json, accepted_json text = Some json /\ json_loads json = Some v))
    /\ (forall inner : string,
           cut_fence ("```json" ++ inner ++ "```") = inner)
    /\ (forall body : string,
           cut_fence ("```json" ++ body) = take (String.length body - 3) body).
Proof.
  intros json_loads content. split; [|split; [|split]].
  - intros v. unfold analyze_job_details_reply, generate_tailored_resume_reply.
    destruct content as [text|]; [|split; discriminate]. cbv zeta.
    destruct (starts_with "```json" (strip text)).
    + destruct (json_loads _); split; intros H; try discriminate; exact H.
    + destruct (starts_with "{" (strip text)); cbn [negb]; [|split; discriminate].
      destruct (json_loads _); split; intros H; try discriminate; exact H.
  - intros text v ->. unfold analyze_job_details_reply, accepted_json. cbv zeta.
    destruct (starts_with "```json" (strip text)).
    + destruct (json_loads (cut_fence (strip text))) as [v'|] eqn:E; split.
      * intros H. injection H as <-. eexists. split; [reflexivity|exact E].
      * intros (json & Hj & Hv). injection Hj as <-. congruence.
      * discriminate.
      * intros (json & Hj & Hv). injection Hj as <-. congruence.
    + destruct (starts_with "{" (strip text)).
      * destruct (json_loads (strip text)) as [v'|] eqn:E; split.
        -- intros H. injection H as <-. eexists. split; [reflexivity|exact E].
        -- intros (json & Hj & Hv). injection Hj as <-. congruence.
        -- discriminate.
        -- intros (json & Hj & Hv). injection Hj as <-. congruence.
      * split; [discriminate|]. intros (json & Hj & _). discriminate.
  - intros inner. rewrite cut_fence_body, length_append.
    replace (String.length inner + String.length "```" - 3) with (String.length inner)
      by (simpl; lia).
    apply take_append.
  - apply cut_fence_body.
Qed.


